(** * Slide-generation backend (server/index.js): a shallow embedding

    The Express backend builds prompts, calls a chat-completion API and an
    image API, post-processes the answers and assembles a slide deck.  The
    external world (the two APIs, [Math.random], [Date.now], the process
    environment, the file system) is passed in explicitly as oracles, so
    that every function below is a total Rocq function of its arguments
    and of the answers the world gives.  The [console.log] and
    [console.error] lines are left out, except for the string conversions
    their templates perform, which can throw.

    Strings are [string]: one [ascii] per UTF-16 code unit (code units
    below 256).  JSON numbers are restricted to integers; their printing
    is the one of JavaScript for the safe integers ([safe_integer]), and
    the statements that depend on a printed number say so. *)

From Stdlib Require Import String Ascii List ZArith QArith Qround Lia Bool.
From Stdlib Require Import DecimalString.
From Stdlib Require DecimalZ DecimalPos.
Import ListNotations.
Close Scope Q_scope.
Open Scope string_scope.

(** ** The JavaScript values the server handles *)

Module JS.

(** What [JSON.parse] can return, plus [undefined] (a missing property or
    a missing request field). *)
#[warnings="-register-all"]
Inductive value : Type :=
| VUndefined
| VNull
| VBool (b : bool)
| VNum (z : Z)
| VStr (s : string)
| VArr (items : list value)
| VObj (props : list (string * value)).

(** Exceptions raised inside the [try] blocks. *)
Inductive exn : Type :=
| Error (message : string)
| TypeError
| SyntaxError
| Rejected.

(** A computation that returns or throws. *)
Definition attempt (A : Type) : Type := (exn + A)%type.

Definition ret {A} (a : A) : attempt A := inr a.
Definition throw {A} (e : exn) : attempt A := inl e.
Definition bind {A B} (c : attempt A) (k : A -> attempt B) : attempt B :=
  match c with
  | inl e => inl e
  | inr a => k a
  end.

(** [try { body } catch (err) { handler }] *)
Definition try_catch {A} (body : attempt A) (handler : exn -> A) : A :=
  match body with
  | inl e => handler e
  | inr a => a
  end.

(** The characters used where a literal would need a quote or a newline. *)
Definition dq : string := String (ascii_of_nat 34) EmptyString.
Definition nl : string := String (ascii_of_nat 10) EmptyString.
Definition unlines (ls : list string) : string := String.concat nl ls.

(** Decimal numerals, as [String(n)] prints an integer of at most
    2^53 - 1 in absolute value ([safe_integer] below).  JavaScript prints a
    larger number rounded, and from 1e21 on in exponent form; that is not
    modelled. *)
Definition decimal (z : Z) : string := NilZero.string_of_int (Z.to_int z).
Definition decimal_nat (n : nat) : string := decimal (Z.of_nat n).

(** [ToString]: what a template literal or [+ ' '] makes of a value, when
    the conversion succeeds ([printable] below tells when it does, and
    [to_string] is the conversion with its throw).
    [Array.prototype.join] prints [null] and [undefined] items as
    nothing. *)
Fixpoint ToString (v : value) : string :=
  match v with
  | VUndefined => "undefined"
  | VNull => "null"
  | VBool true => "true"
  | VBool false => "false"
  | VNum z => decimal z
  | VStr s => s
  | VArr items =>
      String.concat ","
        ((fix each (l : list value) : list string :=
            match l with
            | [] => []
            | VUndefined :: l' => EmptyString :: each l'
            | VNull :: l' => EmptyString :: each l'
            | x :: l' => ToString x :: each l'
            end) items)
  | VObj _ => "[object Object]"
  end.

(** Truthiness, as [!x], [x || y], [x ? a : b] test it. *)
Definition non_empty (s : string) : bool :=
  match s with
  | EmptyString => false
  | String _ _ => true
  end.

Definition truthy (v : value) : bool :=
  match v with
  | VUndefined | VNull => false
  | VBool b => b
  | VNum z => negb (z =? 0)%Z
  | VStr s => non_empty s
  | VArr _ | VObj _ => true
  end.

(** [Object.hasOwn(v, key)] for the properties of a parsed object. *)
Definition has_own_key (props : list (string * value)) (key : string) : bool :=
  existsb (fun kv => (fst kv =? key)%string) props.

(** Whether converting a value to a string succeeds.  A parsed object
    with an own [toString] key has no callable [toString] (JSON holds no
    function), and its [valueOf] gives back the object: the conversion
    throws a TypeError.  An array joins the strings of its items, so it
    throws when one of them does. *)
Fixpoint printable (v : value) : bool :=
  match v with
  | VObj props => negb (has_own_key props "toString")
  | VArr items => forallb printable items
  | _ => true
  end.

(** The conversion itself: [`${v}`], [v + ' ']. *)
Definition to_string (v : value) : attempt string :=
  if printable v then ret (ToString v) else throw TypeError.

(** [Number.isSafeInteger(z)]: the integers that [decimal] prints as
    JavaScript does. *)
Definition safe_integer (z : Z) : bool := (Z.abs z <=? 9007199254740991)%Z.

(** Every number that printing [v] reaches is a safe integer, so that
    [ToString v] is the text JavaScript prints. *)
Fixpoint plain (v : value) : bool :=
  match v with
  | VNum z => safe_integer z
  | VArr items => forallb plain items
  | _ => true
  end.

(** An optional string field: absent is [undefined]. *)
Definition of_option (o : option string) : value :=
  match o with
  | Some s => VStr s
  | None => VUndefined
  end.

Definition isArray (v : value) : bool :=
  match v with
  | VArr _ => true
  | _ => false
  end.

Definition items_of (v : value) : list value :=
  match v with
  | VArr items => items
  | _ => []
  end.

Fixpoint own_property (props : list (string * value)) (key : string) : value :=
  match props with
  | [] => VUndefined
  | (k, v) :: rest => if (k =? key)%string then v else own_property rest key
  end.

(** [v.key] for a key that no prototype defines ([bullets], [paragraphs]):
    reading a property of [undefined] or [null] throws. *)
Definition get (v : value) (key : string) : attempt value :=
  match v with
  | VUndefined | VNull => throw TypeError
  | VObj props => ret (own_property props key)
  | _ => ret VUndefined
  end.

(** [String.prototype.trim] on code units below 256. *)
Definition is_space (c : ascii) : bool :=
  let n := N_of_ascii c in
  ((9 <=? n) && (n <=? 13) || (n =? 32) || (n =? 160))%N.

Fixpoint trim_start (s : string) : string :=
  match s with
  | EmptyString => EmptyString
  | String c s' => if is_space c then trim_start s' else s
  end.

Fixpoint trim_end (s : string) : string :=
  match s with
  | EmptyString => EmptyString
  | String c s' =>
      match trim_end s' with
      | EmptyString => if is_space c then EmptyString else String c EmptyString
      | t => String c t
      end
  end.

Definition trim (s : string) : string := trim_end (trim_start s).

(** [paragraph.trim()]: only a string has the method. *)
Definition call_trim (v : value) : attempt value :=
  match v with
  | VStr s => ret (VStr (trim s))
  | _ => throw TypeError
  end.

(** [items.map(f)] for an [f] that may throw: the first throw aborts. *)
Fixpoint map_attempt {A B} (f : A -> attempt B) (l : list A) : attempt (list B) :=
  match l with
  | [] => ret []
  | a :: l' => bind (f a) (fun b => bind (map_attempt f l') (fun bs => ret (b :: bs)))
  end.

(** [items.map((x, idx) => f(idx, x))] *)
Fixpoint map_index_from {A B} (start : nat) (f : nat -> A -> B) (l : list A) : list B :=
  match l with
  | [] => []
  | a :: l' => f start a :: map_index_from (S start) f l'
  end.

Definition map_index {A B} (f : nat -> A -> B) (l : list A) : list B :=
  map_index_from 0 f l.

(** [items.slice(0, n)] for [n >= 0] *)
Definition slice0 {A} (n : nat) (l : list A) : list A := firstn n l.

End JS.

Import JS.

Declare Scope attempt_scope.
Delimit Scope attempt_scope with attempt.
Notation "x <- c ;; k" := (bind c (fun x => k))
  (at level 61, c at next level, right associativity) : attempt_scope.

(** ** Helper: unique filename (lines 56-60) *)

(** The class [[a-zA-Z0-9]]. *)
Definition is_alnum (c : ascii) : bool :=
  let n := N_of_ascii c in
  ((48 <=? n) && (n <=? 57) || (65 <=? n) && (n <=? 90) || (97 <=? n) && (n <=? 122))%N.

Definition underscore : ascii := "_"%char.

(** [prompt.replace(/[^a-zA-Z0-9]/g, '_')] *)
Fixpoint replace_non_alnum (s : string) : string :=
  match s with
  | EmptyString => EmptyString
  | String c s' => String (if is_alnum c then c else underscore) (replace_non_alnum s')
  end.

Definition sanitizedPrompt (prompt : string) : string :=
  substring 0 20 (replace_non_alnum prompt).

(** [timestamp] is the answer of [Date.now()]. *)
Definition generateImageFilename (timestamp : Z) (prompt : string) (index : value) : string :=
  "slide_" ++ ToString index ++ "_" ++ sanitizedPrompt prompt ++ "_" ++ decimal timestamp ++ ".jpg".

(** ** The chat-completion API *)

Record chat_request : Type := {
  model : string;
  system_content : string;
  user_content : string;
  temperature : Q;
  max_tokens : Z
}.

(** What comes back from [openai.chat.completions.create], read up to
    [JSON.parse(cleanedResponse)] (lines 67-82 and 139-154). *)
Inductive completion : Type :=
| Rejects                   (* the awaited call throws *)
| NoContent                 (* [choices[0]?.message?.content] is falsy *)
| Unparsable                (* [JSON.parse] throws on the cleaned text *)
| Parsed (parsed : value).  (* [JSON.parse] returns [parsed] *)

Definition await_parsed (c : completion) : attempt value :=
  match c with
  | Rejects => throw Rejected
  | NoContent => throw (Error "No response from OpenAI")
  | Unparsable => throw SyntaxError
  | Parsed parsed => ret parsed
  end.

(** A request to the completion API, tagged with the helper that sent it. *)
Inductive api_call : Type :=
| OutlineCall (request : chat_request)
| ContentCall (request : chat_request).

(** A result together with the requests sent to the completion API, in the
    order they were issued. *)
Definition logged (A : Type) : Type := (A * list api_call)%type.

Definition quoted (s : string) : string := dq ++ s ++ dq.

(** ** Helper: outline (lines 63-92) *)

Definition outline_prompt (topic : string) (numSlides : Z) : string :=
  unlines
    [ "Generate " ++ decimal numSlides ++ " professional slide titles for " ++ quoted topic ++ ".";
      EmptyString;
      "IMPORTANT: Use ONLY these action verbs: Revolutionizing, Transforming, Accelerating, Empowering, Disrupting, Innovating";
      EmptyString;
      "BAD examples (NEVER use):";
      "- " ++ quoted ("What is " ++ topic);
      "- " ++ quoted "Introduction";
      "- " ++ quoted "Overview";
      "- " ++ quoted "How it works";
      "- " ++ quoted "Applications";
      EmptyString;
      "GOOD examples for " ++ quoted topic ++ ":";
      "- " ++ quoted "Revolutionizing Industry Standards";
      "- " ++ quoted "Transforming Business Models";
      "- " ++ quoted "Accelerating Innovation";
      "- " ++ quoted "Empowering Digital Transformation";
      EmptyString;
      "Return JSON array with " ++ decimal numSlides ++ " professional titles." ].

Definition outline_request (topic : string) (numSlides : Z) : chat_request :=
  {| model := "gpt-4o";
     system_content := "You are a creative presentation expert who specializes in generating compelling, action-oriented slide titles. You NEVER use generic titles and always focus on impact and innovation. Always respond with valid JSON.";
     user_content := outline_prompt topic numSlides;
     temperature := 9 # 10;
     max_tokens := 200 |}.

Definition outline_fallback (topic : string) : list value :=
  [ VStr ("Introduction to " ++ topic);
    VStr ("Key Concepts of " ++ topic);
    VStr ("Applications of " ++ topic) ].

(** The body of the [try] block. *)
Definition outline_try (answer : completion) : attempt (list value) :=
  (parsed <- await_parsed answer ;;
   ret (if isArray parsed then items_of parsed else []))%attempt.

Definition generateOutline (create : chat_request -> completion)
    (topic : string) (numSlides : Z) (amountOfText : string) : logged (list value) :=
  let request := outline_request topic numSlides in
  (try_catch (outline_try (create request)) (fun err => outline_fallback topic),
   [OutlineCall request]).

(** ** Helper: slide content (lines 95-201) *)

(** The three lines every density-dependent prompt shares. *)
Definition slide_lines (slideTitle : value) (topic amountOfText : string) : list string :=
  [ "- Slide title: " ++ quoted (ToString slideTitle);
    "- Topic: " ++ quoted topic;
    "- Amount of text: " ++ amountOfText ].

(** The prompt and its token budget (lines 96-135): [(prompt, maxTokens)]. *)
Definition slide_prompt (slideTitle : value) (topic amountOfText : string)
    (slideIndex : nat) : string * Z :=
  if (slideIndex =? 0)%nat then
    (unlines
       [ "Generate a compelling opening paragraph for the first slide of a professional presentation.";
         "- Slide title: " ++ quoted (ToString slideTitle);
         "- Topic: " ++ quoted topic;
         "- Create a powerful hook that grabs attention";
         "- Use professional, engaging language with industry-specific terminology";
         "- Include specific insights, statistics, or compelling facts";
         "- Make it memorable and thought-provoking";
         "- Use storytelling elements or surprising statistics";
         "- Return a JSON object: { paragraphs: string[] (1 comprehensive paragraph, 40-60 words) }" ],
     250%Z)
  else if (slideIndex =? 2)%nat then
    if amountOfText =? "Extensive" then
      (unlines
         ("Generate professional bullet points for a presentation slide."
          :: slide_lines slideTitle topic amountOfText ++
          [ "- Use compelling hooks, specific examples, and actionable insights";
            "- Include relevant statistics, case studies, or industry trends";
            "- Make content engaging and memorable";
            "- Return a JSON object: { bullets: string[] (4-6 professional bullet points, 8-15 words each) }" ])%list,
       200%Z)
    else if amountOfText =? "Detailed" then
      (unlines
         ("Generate detailed professional bullet points for a presentation slide."
          :: slide_lines slideTitle topic amountOfText ++
          [ "- Include compelling hooks and specific insights";
            "- Use professional language with concrete examples and industry terminology";
            "- Make content engaging and actionable with specific benefits";
            "- Include relevant statistics, case studies, or industry trends";
            "- Return a JSON object: { bullets: string[] (3-5 professional bullet points, 6-12 words each) }" ])%list,
       180%Z)
    else if amountOfText =? "Concise" then
      (unlines
         ("Generate concise professional bullet points for a presentation slide."
          :: slide_lines slideTitle topic amountOfText ++
          [ "- Use engaging hooks and specific insights";
            "- Keep content clear and impactful with professional terminology";
            "- Include specific benefits or outcomes";
            "- Return a JSON object: { bullets: string[] (3-4 professional bullet points, 5-10 words each) }" ])%list,
       150%Z)
    else
      (unlines
         ("Generate minimal professional bullet points for a presentation slide."
          :: slide_lines slideTitle topic amountOfText ++
          [ "- Use compelling hooks and specific insights";
            "- Keep content clear and engaging with professional language";
            "- Include specific benefits or key takeaways";
            "- Return a JSON object: { bullets: string[] (2-3 professional bullet points, 5-8 words each) }" ])%list,
       120%Z)
  else
    if amountOfText =? "Extensive" then
      (unlines
         ("Generate professional paragraphs for a presentation slide."
          :: slide_lines slideTitle topic amountOfText ++
          [ "- Use compelling hooks, specific examples, and actionable insights";
            "- Include relevant statistics, case studies, or industry trends";
            "- Make content engaging and memorable";
            "- Return a JSON object: { paragraphs: string[] (1-2 professional paragraphs, 20-30 words each) }" ])%list,
       200%Z)
    else if amountOfText =? "Detailed" then
      (unlines
         ("Generate detailed professional paragraphs for a presentation slide."
          :: slide_lines slideTitle topic amountOfText ++
          [ "- Include compelling hooks and specific insights";
            "- Use professional language with concrete examples and industry terminology";
            "- Make content engaging and actionable with specific benefits";
            "- Include relevant statistics, case studies, or industry trends";
            "- Return a JSON object: { paragraphs: string[] (1-2 professional paragraphs, 15-25 words each) }" ])%list,
       180%Z)
    else if amountOfText =? "Concise" then
      (unlines
         ("Generate concise professional paragraphs for a presentation slide."
          :: slide_lines slideTitle topic amountOfText ++
          [ "- Use engaging hooks and specific insights";
            "- Keep content clear and impactful with professional terminology";
            "- Include specific benefits or outcomes";
            "- Return a JSON object: { paragraphs: string[] (1-2 professional paragraphs, 20-35 words each) }" ])%list,
       200%Z)
    else
      (unlines
         ("Generate minimal professional paragraphs for a presentation slide."
          :: slide_lines slideTitle topic amountOfText ++
          [ "- Use compelling hooks and specific insights";
            "- Keep content clear and engaging with professional language";
            "- Include specific benefits or key takeaways";
            "- Return a JSON object: { paragraphs: string[] (1-2 professional paragraphs, 20-35 words each) }" ])%list,
       200%Z).

Definition slide_request (slideTitle : value) (topic amountOfText : string)
    (slideIndex : nat) : chat_request :=
  let '(prompt, maxTokens) := slide_prompt slideTitle topic amountOfText slideIndex in
  {| model := "gpt-4o";
     system_content := "You are a professional presentation expert specializing in creating compelling, engaging content with powerful hooks and actionable insights. Always respond with valid JSON.";
     user_content := prompt;
     temperature := 8 # 10;
     max_tokens := maxTokens |}.

(** Lines 167-190. *)
Definition maxParagraphs (slideIndex : nat) (amountOfText : string) : nat :=
  if (slideIndex =? 0)%nat then 1
  else if (slideIndex =? 2)%nat then
    if amountOfText =? "Extensive" then 6
    else if amountOfText =? "Detailed" then 5
    else if amountOfText =? "Concise" then 4
    else 3
  else if amountOfText =? "Extensive" then 2
  else if amountOfText =? "Detailed" then 2
  else if amountOfText =? "Concise" then 1
  else 2.

Record slide_content : Type := { bullets : list value }.

(** The body of the [try] block, from the parsed answer on (lines 156-194). *)
Definition content_of_parsed (parsed : value) (amountOfText : string)
    (slideIndex : nat) : attempt slide_content :=
  (bullets <-
     (if (slideIndex =? 2)%nat then
        bullets <- get parsed "bullets" ;;
        ret (if isArray bullets then items_of bullets else [])
      else
        paragraphs <- get parsed "paragraphs" ;;
        map_attempt call_trim (if isArray paragraphs then items_of paragraphs else [])) ;;
   ret {| bullets := slice0 (maxParagraphs slideIndex amountOfText) bullets |})%attempt.

Definition content_try (answer : completion) (amountOfText : string)
    (slideIndex : nat) : attempt slide_content :=
  (parsed <- await_parsed answer ;;
   content_of_parsed parsed amountOfText slideIndex)%attempt.

Definition content_fallback (slideIndex : nat) : slide_content :=
  {| bullets :=
       if (slideIndex =? 0)%nat
       then [ VStr "Sample professional opening paragraph for slide one." ]
       else [ VStr "Sample professional paragraph 1"; VStr "Sample professional paragraph 2" ] |}.

Definition generateSlideContent (create : chat_request -> completion)
    (slideTitle : value) (topic amountOfText : string) (slideIndex : nat)
    : logged slide_content :=
  let request := slide_request slideTitle topic amountOfText slideIndex in
  (try_catch (content_try (create request) amountOfText slideIndex)
             (fun err => content_fallback slideIndex),
   [ContentCall request]).

(** The call as a whole.  The prompt is built before the [try] (lines
    96-135) and prints the title: a title that cannot be printed makes the
    call throw before any request is sent; otherwise the call goes on as
    [generateSlideContent] above. *)
Definition call_generateSlideContent (create : chat_request -> completion)
    (slideTitle : value) (topic amountOfText : string) (slideIndex : nat)
    : attempt (logged slide_content) :=
  (printed <- to_string slideTitle ;;
   ret (generateSlideContent create slideTitle topic amountOfText slideIndex))%attempt.

(** ** Helper: image (lines 37-53 and 204-245) *)

(** What comes back from the image API, read up to
    [response.data?.data?.[0]?.url]. *)
Inductive post_outcome : Type :=
| PostRejects
| PostResponse (url : value).

(** The world as one image generation sees it: [axios_post key prompt] is
    the answer to the POST, [axios_get_and_write imageUrl filename] tells
    whether the download and [fs.writeFileSync] both went through, and
    [Date_now] is the clock. *)
Record image_io : Type := {
  axios_post : string -> value -> post_outcome;
  axios_get_and_write : value -> string -> bool;
  Date_now : Z
}.

(** Returns the local URL, or [null]. *)
Definition downloadAndSaveImage (io : image_io) (imageUrl : value) (filename : string) : value :=
  if axios_get_and_write io imageUrl filename
  then VStr ("/uploads/" ++ filename)
  else VNull.

(** [generateImageFilename(prompt, slideIndex)] at a prompt and an index
    of any type: only a string has [replace], and the template prints the
    index. *)
Definition call_generateImageFilename (io : image_io) (prompt slideIndex : value) : attempt string :=
  match prompt with
  | VStr p =>
      (printed <- to_string slideIndex ;;
       ret (generateImageFilename (Date_now io) p slideIndex))%attempt
  | _ => throw TypeError
  end.

(** The default of the parameter [slideIndex = 0]. *)
Definition default_index (slideIndex : value) : value :=
  match slideIndex with
  | VUndefined => VNum 0
  | v => v
  end.

(** The body of the [try] block; [env_key] is [process.env.IDEOGRAM_API_KEY].
    Its first line logs a template that prints the prompt and the style. *)
Definition ideogram_try (env_key : option string) (io : image_io)
    (prompt style slideIndex : value) : attempt value :=
  (shown_prompt <- to_string prompt ;;
   shown_style <- to_string style ;;
   let ideogramPrompt := prompt in
   IDEOGRAM_API_KEY <-
     match env_key with
     | Some k => if non_empty k then ret k else throw (Error "No Ideogram API key found")
     | None => throw (Error "No Ideogram API key found")
     end ;;
   imageUrl <-
     match axios_post io IDEOGRAM_API_KEY ideogramPrompt with
     | PostRejects => throw Rejected
     | PostResponse url => ret url
     end ;;
   if truthy imageUrl then
     filename <- call_generateImageFilename io prompt slideIndex ;;
     let localUrl := downloadAndSaveImage io imageUrl filename in
     if truthy localUrl then ret localUrl
     else throw (Error "Failed to download Ideogram image")
   else throw (Error "No image_url in Ideogram API response"))%attempt.

Definition generateIdeogramImage (env_key : option string) (io : image_io)
    (prompt style slideIndex : value) : value :=
  let slideIndex := default_index slideIndex in
  try_catch (ideogram_try env_key io prompt style slideIndex) (fun err => VNull).

(** ** The two routes (lines 248-312 and 319-327) *)

Record outline_entry : Type := { entry_title : option string }.

Record generation_request : Type := {
  req_title : string;
  req_outline : option (list outline_entry);
  req_theme : option string;
  req_amountOfText : string;
  req_slideCount : option Z;
  req_imageSource : string;
  req_imageStyle : option string
}.

Record slide_image : Type := {
  image_url : value;
  image_alt : value;
  image_source : string;
  image_style : option string
}.

Record slide_record : Type := {
  slide_id : string;
  slide_title : value;
  slide_bullets : list value;
  slide_layout : value;
  slide_theme : option string;
  slide_image_field : option slide_image
}.

Record deck_meta : Type := {
  meta_title : string;
  meta_theme : option string;
  meta_amountOfText : string;
  meta_imageSource : string;
  meta_imageStyle : option string
}.

Record deck : Type := { slides : list slide_record; meta : deck_meta }.

Inductive response (A : Type) : Type :=
| Json (body : A)
| Status500 (err : exn).
Arguments Json {A} body.
Arguments Status500 {A} err.

(** The world as one request to [/api/generate] sees it; the per-slide
    oracles are indexed by the slide's position. *)
Record world : Type := {
  outline_create : chat_request -> completion;
  content_create : nat -> chat_request -> completion;
  env_IDEOGRAM_API_KEY : option string;
  image_io_at : nat -> image_io;
  Math_random : nat -> Q
}.

(** [outline && outline.length] *)
Definition has_length (outline : option (list outline_entry)) : bool :=
  match outline with
  | Some (_ :: _) => true
  | _ => false
  end.

Definition entries (outline : option (list outline_entry)) : list outline_entry :=
  match outline with
  | Some l => l
  | None => []
  end.

(** [outline[0].title], as a condition *)
Definition first_has_title (outline : option (list outline_entry)) : bool :=
  match entries outline with
  | s :: _ => truthy (of_option (entry_title s))
  | [] => false
  end.

(** [slideCount || 5] *)
Definition or_number (slideCount : option Z) (default : Z) : Z :=
  match slideCount with
  | Some z => if (z =? 0)%Z then default else z
  | None => default
  end.

(** [imageStyle || ''] *)
Definition or_empty (imageStyle : option string) : string :=
  match imageStyle with
  | Some s => s
  | None => EmptyString
  end.

Definition numSlides (req : generation_request) : Z :=
  if has_length (req_outline req)
  then Z.of_nat (length (entries (req_outline req)))
  else or_number (req_slideCount req) 5.

Definition outlineTitles (w : world) (req : generation_request) : logged (list value) :=
  if has_length (req_outline req) && first_has_title (req_outline req)
  then (map (fun s => of_option (entry_title s)) (entries (req_outline req)), [])
  else generateOutline (outline_create w) (req_title req) (numSlides req) (req_amountOfText req).

Definition layoutOptions : list string :=
  [ "image-left"; "image-right"; "image-bottom"; "text-only" ].

(** [options[i]] for an integer [i] *)
Definition at_index (options : list string) (i : Z) : value :=
  if (i <? 0)%Z then VUndefined else of_option (nth_error options (Z.to_nat i)).

(** Lines 266-276; [random] is the answer of [Math.random()], which is
    asked for only when [idx] is not [0]. *)
Definition choose_layout (random : Q) (idx : nat) : value :=
  if (idx =? 0)%nat then VStr "image-left"
  else
    let randomIndex := Qfloor (random * inject_Z (Z.of_nat (length layoutOptions))) in
    at_index layoutOptions randomIndex.

(** The callback of [outlineTitles.map] (lines 258-291).  It throws when
    [generateSlideContent] does; nothing after that call can throw. *)
Definition build_slide (w : world) (req : generation_request)
    (idx : nat) (slideTitle : value) : attempt (logged slide_record) :=
  (made <-
     call_generateSlideContent (content_create w idx) slideTitle (req_title req)
       (req_amountOfText req) idx ;;
   imageUrl <-
     (if negb (req_imageSource req =? "None")
      then
        titleText <- to_string slideTitle ;;
        ret (generateIdeogramImage (env_IDEOGRAM_API_KEY w) (image_io_at w idx)
               (VStr (titleText ++ " " ++ or_empty (req_imageStyle req)))
               (of_option (req_imageStyle req)) (VNum (Z.of_nat idx)))
      else ret VUndefined) ;;
   let layout := choose_layout (Math_random w idx) idx in
   ret ({| slide_id := "slide-" ++ decimal_nat (idx + 1);
           slide_title := slideTitle;
           slide_bullets := bullets (fst made);
           slide_layout := layout;
           slide_theme := req_theme req;
           slide_image_field :=
             if truthy imageUrl
             then Some {| image_url := imageUrl;
                          image_alt := slideTitle;
                          image_source := req_imageSource req;
                          image_style := req_imageStyle req |}
             else None |},
        snd made))%attempt.

(** [await Promise.all(promises)]: the results in order, or the first
    rejection. *)
Definition Promise_all {A} (promises : list (attempt A)) : attempt (list A) :=
  map_attempt (fun promise => promise) promises.

(** The requests a callback sent: one that threw had sent none yet. *)
Definition sent {A} (promise : attempt (logged A)) : list api_call :=
  match promise with
  | inr made => snd made
  | inl _ => []
  end.

(** [POST /api/generate]: the response, and the completion requests sent
    while producing it.  Every callback of the map is started, also after
    one of them has thrown; the route answers 500 when one has. *)
Definition api_generate (w : world) (req : generation_request) : logged (response deck) :=
  let '(titles, outline_log) := outlineTitles w req in
  let promises := map_index (build_slide w req) titles in
  (try_catch
     (built <- Promise_all promises ;;
      ret (Json {| slides := map fst built;
                   meta := {| meta_title := req_title req;
                              meta_theme := req_theme req;
                              meta_amountOfText := req_amountOfText req;
                              meta_imageSource := req_imageSource req;
                              meta_imageStyle := req_imageStyle req |} |}))%attempt
     (fun err => Status500 err),
   (outline_log ++ concat (map sent promises))%list).

Record image_request : Type := {
  body_prompt : value;
  body_style : value;
  body_slideIndex : value
}.

Record image_reply : Type := { imageUrl : value }.

(** [POST /api/generate-image]; [slideIndex] defaults to [0] when the body
    leaves it out. *)
Definition api_generate_image (env_key : option string) (io : image_io)
    (body : image_request) : response image_reply :=
  let slideIndex :=
    match body_slideIndex body with
    | VUndefined => VNum 0
    | v => v
    end in
  try_catch
    (ret (Json {| imageUrl :=
                    generateIdeogramImage env_key io (body_prompt body) (body_style body) slideIndex |}))
    (fun err => Status500 err).

(** ** Vocabulary of the statements *)

(** [t] is a string with [topic] inside. *)
Definition contains (t : value) (topic : string) : Prop :=
  exists before after, t = VStr (before ++ topic ++ after).

(** The requests a log holds that [generateOutline] sent. *)
Definition outline_calls (log : list api_call) : list chat_request :=
  flat_map (fun c => match c with OutlineCall r => [r] | ContentCall _ => [] end) log.

Definition outline_generator_invoked (w : world) (req : generation_request) : Prop :=
  outline_calls (snd (api_generate w req)) <> [].

(** [Math.random()] answers in [[0, 1)]. *)
Definition in_unit_interval (r : Q) : Prop := (0 <= r /\ r < 1)%Q.

Definition is_layout_option (layout : value) : Prop :=
  exists l, In l layoutOptions /\ layout = VStr l.

Definition has_title (s : outline_entry) : bool := truthy (of_option (entry_title s)).

Definition supplied_titles (req : generation_request) : list value :=
  map (fun s => of_option (entry_title s)) (entries (req_outline req)).

(** The paragraphs a parsed answer carries, none when it has no such array. *)
Definition paragraphs_of (parsed : value) : list value :=
  match get parsed "paragraphs" with
  | inr v => items_of v
  | inl _ => []
  end.

(** The [catch] arm of [generateSlideContent] is taken. *)
Definition content_falls_back (create : chat_request -> completion)
    (slideTitle : value) (topic amountOfText : string) (slideIndex : nat) : Prop :=
  exists err,
    content_try (create (slide_request slideTitle topic amountOfText slideIndex))
      amountOfText slideIndex = inl err.

Definition all_alnum (s : string) : bool := forallb is_alnum (list_ascii_of_string s).

Definition keep_or_underscore (c : ascii) : ascii := if is_alnum c then c else underscore.

(** What the callback of the map returns for a title that can be printed:
    the slide record, and the content request sent. *)
Definition assemble_slide (w : world) (req : generation_request)
    (idx : nat) (slideTitle : value) : logged slide_record :=
  let '(content, log) :=
    generateSlideContent (content_create w idx) slideTitle (req_title req)
      (req_amountOfText req) idx in
  let imageUrl :=
    if negb (req_imageSource req =? "None")
    then generateIdeogramImage (env_IDEOGRAM_API_KEY w) (image_io_at w idx)
           (VStr (ToString slideTitle ++ " " ++ or_empty (req_imageStyle req)))
           (of_option (req_imageStyle req)) (VNum (Z.of_nat idx))
    else VUndefined in
  let layout := choose_layout (Math_random w idx) idx in
  ({| slide_id := "slide-" ++ decimal_nat (idx + 1);
      slide_title := slideTitle;
      slide_bullets := bullets content;
      slide_layout := layout;
      slide_theme := req_theme req;
      slide_image_field :=
        if truthy imageUrl
        then Some {| image_url := imageUrl;
                     image_alt := slideTitle;
                     image_source := req_imageSource req;
                     image_style := req_imageStyle req |}
        else None |},
   log).

(** Every title of the deck to build can be printed. *)
Definition titles_printable (w : world) (req : generation_request) : bool :=
  forallb printable (fst (outlineTitles w req)).

(** The deck [POST /api/generate] answers with, when it answers with one. *)
Definition deck_of (w : world) (req : generation_request) : deck :=
  {| slides := map_index (fun idx t => fst (assemble_slide w req idx t)) (fst (outlineTitles w req));
     meta := {| meta_title := req_title req;
                meta_theme := req_theme req;
                meta_amountOfText := req_amountOfText req;
                meta_imageSource := req_imageSource req;
                meta_imageStyle := req_imageStyle req |} |}.

(** ** Sample inputs *)

Definition solar_request : generation_request :=
  {| req_title := "Solar Power";
     req_outline := Some [];
     req_theme := None;
     req_amountOfText := "Minimal";
     req_slideCount := Some 3%Z;
     req_imageSource := "None";
     req_imageStyle := None |}.

Definition sample_io : image_io :=
  {| axios_post := fun _ _ => PostResponse (VStr "https://ideogram.ai/api/images/1.png");
     axios_get_and_write := fun _ _ => true;
     Date_now := 1700000000000 |}.

(** Every completion call is rejected; images succeed; the layout draws
    are 0, 1/7, 2/7, ... *)
Definition offline_world : world :=
  {| outline_create := fun _ => Rejects;
     content_create := fun _ _ => Rejects;
     env_IDEOGRAM_API_KEY := Some "key";
     image_io_at := fun _ => sample_io;
     Math_random := fun i => (Z.of_nat (i mod 7) # 7)%Q |}.

Definition replying_world (outline_answer content_answer : value) : world :=
  {| outline_create := fun _ => Parsed outline_answer;
     content_create := fun _ _ => Parsed content_answer;
     env_IDEOGRAM_API_KEY := Some "key";
     image_io_at := fun _ => sample_io;
     Math_random := fun i => (Z.of_nat (i mod 7) # 7)%Q |}.

Definition illustrated_request : generation_request :=
  {| req_title := "Solar Power";
     req_outline := Some [ {| entry_title := Some "Sun" |}; {| entry_title := None |} ];
     req_theme := Some "modern";
     req_amountOfText := "Concise";
     req_slideCount := None;
     req_imageSource := "Ideogram";
     req_imageStyle := Some "flat" |}.

Definition untitled_first_request : generation_request :=
  {| req_title := "Solar Power";
     req_outline := Some [ {| entry_title := None |}; {| entry_title := Some "Sun" |} ];
     req_theme := Some "modern";
     req_amountOfText := "Concise";
     req_slideCount := Some 7%Z;
     req_imageSource := "None";
     req_imageStyle := None |}.

Definition titled_request : generation_request :=
  {| req_title := "Solar Power";
     req_outline := Some [ {| entry_title := Some "Sun" |}; {| entry_title := Some "Panels" |} ];
     req_theme := None;
     req_amountOfText := "Detailed";
     req_slideCount := Some 5%Z;
     req_imageSource := "None";
     req_imageStyle := None |}.

(** ** Further vocabulary *)

Definition is_string (v : value) : bool :=
  match v with
  | VStr _ => true
  | _ => false
  end.

(** A paragraph after [paragraph.trim()], for a paragraph that is a string. *)
Definition trimmed (v : value) : value :=
  match v with
  | VStr s => VStr (trim s)
  | _ => v
  end.

(** The image of one generation was fetched and written as [filename]:
    the prompt is a string, the style and the slide index (0 when left
    out) can be printed, the key is set, the image API answered with a URL
    and the download went through. *)
Definition image_saved_as (env_key : option string) (io : image_io)
    (prompt style slideIndex : value) (filename : string) : Prop :=
  exists key p remote,
    env_key = Some key /\ non_empty key = true /\
    prompt = VStr p /\ printable style = true /\
    printable (default_index slideIndex) = true /\
    axios_post io key prompt = PostResponse remote /\ truthy remote = true /\
    filename = generateImageFilename (Date_now io) p (default_index slideIndex) /\
    axios_get_and_write io remote filename = true.

(** The characters a filename with an integer index is made of. *)
Definition filename_char (c : ascii) : bool :=
  is_alnum c || Ascii.eqb c "_" || Ascii.eqb c "-" || Ascii.eqb c ".".

Definition all_chars (p : ascii -> bool) (s : string) : bool :=
  forallb p (list_ascii_of_string s).

Definition is_digit (c : ascii) : bool :=
  let n := N_of_ascii c in ((48 <=? n) && (n <=? 57))%N.

(** The prompt [/api/generate] hands to the image helper for a slide. *)
Definition image_prompt (req : generation_request) (slideTitle : value) : string :=
  ToString slideTitle ++ " " ++ or_empty (req_imageStyle req).

(** The content request of the slide at position [idx] with title [t]. *)
Definition content_call_of (req : generation_request) (idx : nat) (t : value) : api_call :=
  ContentCall (slide_request t (req_title req) (req_amountOfText req) idx).

(** A world in which the image API answers and the key is the given one. *)
Definition keyed_world (env_key : option string) : world :=
  {| outline_create := fun _ => Rejects;
     content_create := fun _ _ => Rejects;
     env_IDEOGRAM_API_KEY := env_key;
     image_io_at := fun _ => sample_io;
     Math_random := fun i => (Z.of_nat (i mod 7) # 7)%Q |}.

(** Every character but [sep]. *)
Definition other_than (sep c : ascii) : bool := negb (Ascii.eqb c sep).

(** The same request with another [slideCount]. *)
Definition with_slideCount (slideCount : option Z) (req : generation_request)
    : generation_request :=
  {| req_title := req_title req;
     req_outline := req_outline req;
     req_theme := req_theme req;
     req_amountOfText := req_amountOfText req;
     req_slideCount := slideCount;
     req_imageSource := req_imageSource req;
     req_imageStyle := req_imageStyle req |}.

(** The same request with another [outline]. *)
Definition with_outline (outline : option (list outline_entry)) (req : generation_request)
    : generation_request :=
  {| req_title := req_title req;
     req_outline := outline;
     req_theme := req_theme req;
     req_amountOfText := req_amountOfText req;
     req_slideCount := req_slideCount req;
     req_imageSource := req_imageSource req;
     req_imageStyle := req_imageStyle req |}.

(** The slide index [/api/generate-image] works with. *)
Definition body_index (body : image_request) : value :=
  match body_slideIndex body with
  | VUndefined => VNum 0
  | v => v
  end.

(** The same body with another [style]. *)
Definition with_style (style : value) (body : image_request) : image_request :=
  {| body_prompt := body_prompt body;
     body_style := style;
     body_slideIndex := body_slideIndex body |}.

Definition sample_body : image_request :=
  {| body_prompt := VStr "Solar Power flat";
     body_style := VStr "flat";
     body_slideIndex := VUndefined |}.

(** The most bullets a slide at position [i] can have. *)
Definition bullet_bound (i : nat) : nat :=
  match i with
  | 0 => 1
  | 2 => 6
  | _ => 2
  end.

(** The completion API is down: every call is rejected, returns no
    content, or returns text that does not parse. *)
Definition failed (answer : completion) : Prop :=
  match answer with
  | Parsed _ => False
  | _ => True
  end.

(** ** The navigation bar (components/molecules/ModernNavbar.tsx)

    The component keeps two booleans and reacts to two kinds of events: the
    [mousedown] listener on the document, and the [onClick] handlers of its
    buttons.  An element is named by where it sits in the markup. *)

Module Navbar.

Record state : Type := {
  themeDropdownOpen : bool;
  menuDropdownOpen : bool
}.

(** [useState(false)], twice. *)
Definition initial : state :=
  {| themeDropdownOpen := false; menuDropdownOpen := false |}.

Record props : Type := {
  themes : list string;      (* the keys of [themes], in order *)
  onPresent : bool;          (* whether the optional callback is passed *)
  onExport : bool
}.

Inductive element : Type :=
| ThemeButton
| ThemeItem (key : string)
| PresentButton
| MenuButton
| ExportItem
| SettingsItem
| Elsewhere.

Inductive callback : Type :=
| OnThemeChange (key : string)
| OnPresent
| OnExport.

(** [themeDropdownRef.current.contains(event.target)]: the div holds the
    theme button and the theme list. *)
Definition in_theme_dropdown (e : element) : bool :=
  match e with
  | ThemeButton | ThemeItem _ => true
  | _ => false
  end.

(** [menuDropdownRef.current.contains(event.target)] *)
Definition in_menu_dropdown (e : element) : bool :=
  match e with
  | MenuButton | ExportItem | SettingsItem => true
  | _ => false
  end.

(** Lines 32-39. *)
Definition handleClickOutside (target : element) (s : state) : state :=
  let s1 :=
    if negb (in_theme_dropdown target)
    then {| themeDropdownOpen := false; menuDropdownOpen := menuDropdownOpen s |}
    else s in
  if negb (in_menu_dropdown target)
  then {| themeDropdownOpen := themeDropdownOpen s1; menuDropdownOpen := false |}
  else s1.

(** What the markup shows: the theme items only while the theme dropdown
    is open, one per theme; Export and Settings only while the menu is
    open. *)
Definition rendered (p : props) (s : state) (e : element) : bool :=
  match e with
  | ThemeItem key => themeDropdownOpen s && existsb (String.eqb key) (themes p)
  | ExportItem | SettingsItem => menuDropdownOpen s
  | _ => true
  end.

(** The [onClick] handlers: the new state and the callbacks called. *)
Definition onClick (p : props) (e : element) (s : state) : state * list callback :=
  match e with
  | ThemeButton =>
      ({| themeDropdownOpen := negb (themeDropdownOpen s);
          menuDropdownOpen := menuDropdownOpen s |}, [])
  | ThemeItem key =>
      ({| themeDropdownOpen := false; menuDropdownOpen := menuDropdownOpen s |},
       [OnThemeChange key])
  | PresentButton => (s, if onPresent p then [OnPresent] else [])
  | MenuButton =>
      ({| themeDropdownOpen := themeDropdownOpen s;
          menuDropdownOpen := negb (menuDropdownOpen s) |}, [])
  | ExportItem =>
      ({| themeDropdownOpen := themeDropdownOpen s; menuDropdownOpen := false |},
       if onExport p then [OnExport] else [])
  | SettingsItem =>
      ({| themeDropdownOpen := themeDropdownOpen s; menuDropdownOpen := false |}, [])
  | Elsewhere => (s, [])
  end.

Inductive event : Type :=
| MouseDown (target : element)
| Click (target : element).

(** One event; it can only land on an element that is on the page. *)
Definition dispatch (p : props) (ev : event) (s : state) : state * list callback :=
  match ev with
  | MouseDown target =>
      if rendered p s target then (handleClickOutside target s, []) else (s, [])
  | Click target => if rendered p s target then onClick p target s else (s, [])
  end.

(** A run of events: the final state and the callbacks, in call order. *)
Fixpoint run (p : props) (evs : list event) (s : state) : state * list callback :=
  match evs with
  | [] => (s, [])
  | ev :: rest =>
      let '(s1, calls1) := dispatch p ev s in
      let '(s2, calls2) := run p rest s1 in
      (s2, (calls1 ++ calls2)%list)
  end.

(** Pressing and releasing the mouse button on one element. *)
Definition mouse_click (target : element) : list event :=
  [ MouseDown target; Click target ].

End Navbar.

(** * Properties *)

(** ** Filename generation *)

Lemma get_replace_non_alnum (s : string) (i : nat) :
  String.get i (replace_non_alnum s) = option_map keep_or_underscore (String.get i s).
Proof.
  revert i; induction s as [|c s IH]; intros [|i]; simpl; auto.
Qed.

Lemma get_substring_0 (n : nat) (s : string) (i : nat) :
  String.get i (substring 0 n s) = if (i <? n)%nat then String.get i s else None.
Proof.
  revert s i; induction n as [|n IH]; intros [|c s] [|i]; try reflexivity.
  - change (None = if (i <? n)%nat then None else None :> option ascii).
    now destruct (i <? n)%nat.
  - change (String.get i (substring 0 n s) =
            if (i <? n)%nat then String.get i s else None).
    apply IH.
Qed.

Lemma length_substring_0 (n : nat) (s : string) :
  String.length (substring 0 n s) = Nat.min n (String.length s).
Proof.
  revert s; induction n as [|n IH]; intros [|c s]; simpl; auto.
Qed.

Lemma length_replace_non_alnum (s : string) :
  String.length (replace_non_alnum s) = String.length s.
Proof.
  induction s; simpl; congruence.
Qed.

(** C8, as stated, fails: the sanitized fragment of ["a b"] is ["a_b"], so
    the space is replaced, not removed, and the fragment holds a character
    that is not alphanumeric. *)
Lemma sanitization_keeps_underscores :
  sanitizedPrompt "a b" = "a_b" /\
  ~ (forall prompt, all_alnum (sanitizedPrompt prompt) = true).
Proof.
  split; [reflexivity|].
  intros H. specialize (H "a b"). vm_compute in H. discriminate.
Qed.

(** C8 (amended). The filename is [slide_<index>_<fragment>_<timestamp>.jpg],
    a function of the prompt, the slide index and the timestamp alone; the
    fragment is the first 20 characters of the prompt, each character that
    is not alphanumeric replaced by an underscore (so it has the length of
    the prompt when that is below 20, and 20 otherwise). *)
Theorem generateImageFilename_shape (timestamp : Z) (prompt : string) (index : value) :
  generateImageFilename timestamp prompt index =
    "slide_" ++ ToString index ++ "_" ++ sanitizedPrompt prompt ++ "_"
      ++ decimal timestamp ++ ".jpg" /\
  String.length (sanitizedPrompt prompt) = Nat.min 20 (String.length prompt) /\
  (forall i, String.get i (sanitizedPrompt prompt) =
             if (i <? 20)%nat then option_map keep_or_underscore (String.get i prompt)
             else None) /\
  (forall i c, String.get i (sanitizedPrompt prompt) = Some c ->
               is_alnum c = true \/ c = underscore).
Proof.
  assert (Hget : forall i, String.get i (sanitizedPrompt prompt) =
                           if (i <? 20)%nat
                           then option_map keep_or_underscore (String.get i prompt)
                           else None).
  { intros i. unfold sanitizedPrompt.
    rewrite get_substring_0, get_replace_non_alnum. reflexivity. }
  split; [reflexivity|]. split; [|split; [exact Hget|]].
  - unfold sanitizedPrompt.
    now rewrite length_substring_0, length_replace_non_alnum.
  - intros i c. rewrite Hget.
    destruct (i <? 20)%nat; [|discriminate].
    destruct (String.get i prompt) as [c0|]; [|discriminate].
    intros [= <-]. unfold keep_or_underscore.
    destruct (is_alnum c0) eqn:Hc0; [left; exact Hc0 | right; reflexivity].
Qed.

Lemma generateImageFilename_shape_witness :
  String.get 1 (sanitizedPrompt "a b") = Some underscore /\
  generateImageFilename 1700000000000 "Solar Power: the future of energy" (VNum 3) =
    "slide_3_Solar_Power__the_fut_1700000000000.jpg".
Proof.
  split; [|reflexivity].
  destruct (generateImageFilename_shape 0 "a b" VNull) as (_ & _ & Hget & _).
  rewrite Hget. reflexivity.
Defined.

(** ** Token budgets *)

(** C7, as stated, fails for the slides other than the first and the third:
    there the budget does not go down with the density as in the table of
    the third slide, Concise gets more tokens than Detailed. *)
Lemma other_slides_budget_not_decreasing :
  ~ (forall slideTitle topic idx, idx <> 0%nat -> idx <> 2%nat ->
       (max_tokens (slide_request slideTitle topic "Extensive" idx)
          >= max_tokens (slide_request slideTitle topic "Detailed" idx)
        /\ max_tokens (slide_request slideTitle topic "Detailed" idx)
          >= max_tokens (slide_request slideTitle topic "Concise" idx)
        /\ max_tokens (slide_request slideTitle topic "Concise" idx)
          >= max_tokens (slide_request slideTitle topic "Minimal" idx))%Z).
Proof.
  intros H.
  destruct (H (VStr "Panels") "Solar Power" 1%nat) as (_ & H2 & _); try discriminate.
  vm_compute in H2. apply H2. reflexivity.
Qed.

Lemma max_tokens_slide_request slideTitle topic amountOfText slideIndex :
  max_tokens (slide_request slideTitle topic amountOfText slideIndex) =
  snd (slide_prompt slideTitle topic amountOfText slideIndex).
Proof.
  unfold slide_request.
  now destruct (slide_prompt slideTitle topic amountOfText slideIndex).
Qed.

Lemma slide_index_cases (idx : nat) :
  idx <> 0%nat -> idx <> 2%nat -> (idx =? 0)%nat = false /\ (idx =? 2)%nat = false.
Proof.
  intros H0 H2. split; apply Nat.eqb_neq; assumption.
Qed.

(** C7 (amended). The token budget sent with a slide's prompt is 250 for
    slide index 0 whatever the density; for slide index 2 it is 200, 180,
    150, 120 for Extensive, Detailed, Concise, Minimal; for every other
    index it is 200, 180, 200, 200 for Extensive, Detailed, Concise,
    Minimal; a density that is none of Extensive, Detailed, Concise gets
    the Minimal budget. *)
Theorem token_budget_table (slideTitle : value) (topic : string) :
  (forall amountOfText,
      max_tokens (slide_request slideTitle topic amountOfText 0) = 250%Z) /\
  (max_tokens (slide_request slideTitle topic "Extensive" 2) = 200%Z /\
   max_tokens (slide_request slideTitle topic "Detailed" 2) = 180%Z /\
   max_tokens (slide_request slideTitle topic "Concise" 2) = 150%Z /\
   max_tokens (slide_request slideTitle topic "Minimal" 2) = 120%Z) /\
  (forall idx, idx <> 0%nat -> idx <> 2%nat ->
     max_tokens (slide_request slideTitle topic "Extensive" idx) = 200%Z /\
     max_tokens (slide_request slideTitle topic "Detailed" idx) = 180%Z /\
     max_tokens (slide_request slideTitle topic "Concise" idx) = 200%Z /\
     max_tokens (slide_request slideTitle topic "Minimal" idx) = 200%Z) /\
  (forall idx amountOfText,
     amountOfText <> "Extensive" -> amountOfText <> "Detailed" ->
     amountOfText <> "Concise" ->
     max_tokens (slide_request slideTitle topic amountOfText idx) =
     max_tokens (slide_request slideTitle topic "Minimal" idx)).
Proof.
  repeat split; intros; rewrite ?max_tokens_slide_request; try reflexivity.
  1-4: unfold slide_prompt;
       destruct (slide_index_cases idx) as [-> ->]; auto.
  unfold slide_prompt.
  repeat match goal with
         | H : ?a <> ?s |- _ =>
             apply String.eqb_neq in H; rewrite H; clear H
         end.
  destruct (idx =? 0)%nat; [reflexivity|].
  destruct (idx =? 2)%nat; reflexivity.
Qed.

Lemma token_budget_table_witness :
  (1 <> 0 /\ 1 <> 2)%nat /\
  max_tokens (slide_request (VStr "Panels") "Solar Power" "Concise" 1) = 200%Z /\
  "Brief" <> "Extensive" /\ "Brief" <> "Detailed" /\ "Brief" <> "Concise" /\
  max_tokens (slide_request (VStr "Panels") "Solar Power" "Brief" 2) =
  max_tokens (slide_request (VStr "Panels") "Solar Power" "Minimal" 2).
Proof.
  destruct (token_budget_table (VStr "Panels") "Solar Power")
    as (_ & _ & Hother & Hdefault).
  split; [split; discriminate|].
  split; [apply (Hother 1%nat); discriminate|].
  repeat (split; [discriminate|]).
  apply (Hdefault 2%nat "Brief"); discriminate.
Defined.

(** ** Image generation without a key *)

(** C6. With no [IDEOGRAM_API_KEY] in the environment, [generateIdeogramImage]
    yields [null] for every prompt, style and slide index, whatever the image
    API would have answered, and [POST /api/generate-image] answers
    [{imageUrl: null}], not an error status. *)
Theorem no_key_no_image (io : image_io) :
  (forall prompt style slideIndex,
      generateIdeogramImage None io prompt style slideIndex = VNull) /\
  (forall body,
      api_generate_image None io body = Json {| imageUrl := VNull |}).
Proof.
  assert (Hnull : forall prompt style slideIndex,
             generateIdeogramImage None io prompt style slideIndex = VNull).
  { intros prompt style slideIndex.
    unfold generateIdeogramImage, ideogram_try, to_string, bind, ret, throw.
    destruct (printable prompt); [|reflexivity].
    destruct (printable style); reflexivity. }
  split; [exact Hnull|].
  intros body. unfold api_generate_image. now rewrite Hnull.
Qed.

(** ** The outline generator *)

Lemma contains_suffix (before topic : string) : contains (VStr (before ++ topic)) topic.
Proof.
  exists before, EmptyString.
  f_equal. f_equal.
  induction topic as [|c topic IH]; simpl; congruence.
Qed.

Lemma outline_fallback_titles (topic : string) :
  length (outline_fallback topic) = 3%nat /\
  Forall (fun t => contains t topic) (outline_fallback topic).
Proof.
  split; [reflexivity|].
  unfold outline_fallback.
  repeat constructor; apply contains_suffix.
Qed.

Lemma outline_titles_by_answer (create : chat_request -> completion)
    (topic : string) (numSlides : Z) (amountOfText : string) :
  fst (generateOutline create topic numSlides amountOfText) =
  match create (outline_request topic numSlides) with
  | Rejects | NoContent | Unparsable => outline_fallback topic
  | Parsed (VArr items) => items
  | Parsed _ => []
  end.
Proof.
  unfold generateOutline; simpl.
  destruct (create (outline_request topic numSlides)) as [| | |parsed]; try reflexivity.
  destruct parsed; reflexivity.
Qed.

(** C3, as stated, fails where the answer is valid JSON that is no array:
    for the answer [{}] the outline is empty, not the three fallback
    titles. *)
Lemma outline_of_non_array_is_empty :
  fst (generateOutline (fun _ => Parsed (VObj [])) "Solar Power" 3 "Minimal") = [] /\
  length (fst (generateOutline (fun _ => Parsed (VObj [])) "Solar Power" 3 "Minimal")) <> 3%nat.
Proof.
  split; [reflexivity | discriminate].
Qed.

(** C3 (amended). When the completion call throws, returns no content or
    returns text that does not parse as JSON, [generateOutline] returns
    exactly 3 fallback titles, each containing the topic.  When the answer
    parses to an array, the array is returned as it is; when it parses to
    anything else, the empty list is returned. *)
Theorem generateOutline_results (create : chat_request -> completion)
    (topic : string) (numSlides : Z) (amountOfText : string) :
  let titles := fst (generateOutline create topic numSlides amountOfText) in
  match create (outline_request topic numSlides) with
  | Rejects | NoContent | Unparsable =>
      titles = outline_fallback topic /\
      length titles = 3%nat /\
      Forall (fun t => contains t topic) titles
  | Parsed (VArr items) => titles = items
  | Parsed _ => titles = []
  end.
Proof.
  intros titles. subst titles. rewrite outline_titles_by_answer.
  destruct (create (outline_request topic numSlides)) as [| | |parsed];
    try (split; [reflexivity | apply outline_fallback_titles]).
  destruct parsed; reflexivity.
Qed.

(** ** The assembled deck *)

Lemma nth_error_map_index_from {A B} (f : nat -> A -> B) (l : list A) (start i : nat) :
  nth_error (map_index_from start f l) i = option_map (f (start + i)%nat) (nth_error l i).
Proof.
  revert start i; induction l as [|a l IH]; intros start [|i]; simpl; auto.
  - now rewrite Nat.add_0_r.
  - rewrite IH. now rewrite Nat.add_succ_r.
Qed.

Lemma map_map_index_from {A B C} (g : B -> C) (f : nat -> A -> B) (l : list A) (start : nat) :
  map g (map_index_from start f l) = map_index_from start (fun i a => g (f i a)) l.
Proof.
  revert start; induction l as [|a l IH]; intros start; simpl; congruence.
Qed.

Lemma length_map_index_from {A B} (f : nat -> A -> B) (l : list A) (start : nat) :
  length (map_index_from start f l) = length l.
Proof.
  revert start; induction l as [|a l IH]; intros start; simpl; congruence.
Qed.

(** The callback throws exactly when the title cannot be printed. *)
Lemma build_slide_cases (w : world) (req : generation_request) (idx : nat) (t : value) :
  build_slide w req idx t =
  if printable t then inr (assemble_slide w req idx t) else inl TypeError.
Proof.
  unfold build_slide, call_generateSlideContent, to_string, assemble_slide,
    generateSlideContent, bind, ret, throw.
  destruct (printable t); [|reflexivity].
  destruct (negb (req_imageSource req =? "None")); reflexivity.
Qed.

Lemma Promise_all_slides (w : world) (req : generation_request)
    (titles : list value) (start : nat) :
  Promise_all (map_index_from start (build_slide w req) titles) =
  if forallb printable titles
  then inr (map_index_from start (assemble_slide w req) titles)
  else inl TypeError.
Proof.
  unfold Promise_all.
  revert start; induction titles as [|t titles IH]; intros start; [reflexivity|].
  cbn [map_index_from map_attempt forallb]. rewrite build_slide_cases.
  destruct (printable t); [|reflexivity].
  cbn [bind andb]. rewrite IH.
  now destruct (forallb printable titles).
Qed.

Lemma sent_by_slides (w : world) (req : generation_request)
    (titles : list value) (start : nat) :
  concat (map sent (map_index_from start (build_slide w req) titles)) =
  concat (map_index_from start
            (fun i t => if printable t then [content_call_of req i t] else []) titles).
Proof.
  revert start; induction titles as [|t titles IH]; intros start; [reflexivity|].
  cbn [map_index_from map concat]. rewrite IH, build_slide_cases.
  now destruct (printable t).
Qed.

(** The route answers with a deck when every title can be printed, and
    with status 500 otherwise. *)
Lemma api_generate_response (w : world) (req : generation_request) :
  fst (api_generate w req) =
  if titles_printable w req then Json (deck_of w req) else Status500 TypeError.
Proof.
  unfold api_generate, deck_of, titles_printable, map_index.
  destruct (outlineTitles w req) as [titles outline_log]. cbn [fst].
  rewrite Promise_all_slides.
  destruct (forallb printable titles); [|reflexivity].
  cbn [bind try_catch ret]. now rewrite map_map_index_from.
Qed.

Lemma api_generate_answers (w : world) (req : generation_request) :
  titles_printable w req = true ->
  fst (api_generate w req) = Json (deck_of w req).
Proof.
  intros H. now rewrite api_generate_response, H.
Qed.

Lemma api_generate_deck (w : world) (req : generation_request) (body : deck) :
  fst (api_generate w req) = Json body ->
  body = deck_of w req /\ titles_printable w req = true.
Proof.
  rewrite api_generate_response.
  destruct (titles_printable w req); [|discriminate].
  intros [= <-]. now split.
Qed.

Lemma log_of_api_generate (w : world) (req : generation_request) :
  snd (api_generate w req) =
  (snd (outlineTitles w req) ++
   concat (map_index
             (fun i t => if printable t then [content_call_of req i t] else [])
             (fst (outlineTitles w req))))%list.
Proof.
  unfold api_generate, map_index.
  destruct (outlineTitles w req) as [titles outline_log]. cbn [fst snd].
  now rewrite sent_by_slides.
Qed.

Lemma strings_printable (titles : list value) :
  Forall (fun t => is_string t = true \/ t = VUndefined) titles ->
  forallb printable titles = true.
Proof.
  intros H. apply forallb_forall. intros t Hin.
  rewrite Forall_forall in H. destruct (H t Hin) as [Hs| ->]; [|reflexivity].
  now destruct t.
Qed.

Lemma supplied_titles_printable (req : generation_request) :
  forallb printable (supplied_titles req) = true.
Proof.
  apply strings_printable. unfold supplied_titles.
  apply Forall_forall. intros t Hin. apply in_map_iff in Hin.
  destruct Hin as (s0 & <- & _). destruct (entry_title s0); simpl; auto.
Qed.

Lemma outline_fallback_printable (topic : string) :
  forallb printable (outline_fallback topic) = true.
Proof.
  reflexivity.
Qed.

Lemma nth_slide (w : world) (req : generation_request) (i : nat) (s : slide_record) :
  nth_error (slides (deck_of w req)) i = Some s ->
  exists t, nth_error (fst (outlineTitles w req)) i = Some t /\
            s = fst (assemble_slide w req i t).
Proof.
  unfold deck_of, map_index; simpl.
  rewrite nth_error_map_index_from; simpl.
  destruct (nth_error (fst (outlineTitles w req)) i) as [t|]; simpl; [|discriminate].
  intros [= <-]. now exists t.
Qed.

Lemma assemble_slide_fields (w : world) (req : generation_request) (idx : nat) (t : value) :
  let s := fst (assemble_slide w req idx t) in
  slide_id s = "slide-" ++ decimal_nat (idx + 1) /\
  slide_title s = t /\
  slide_bullets s =
    bullets (fst (generateSlideContent (content_create w idx) t (req_title req)
                    (req_amountOfText req) idx)) /\
  slide_layout s = choose_layout (Math_random w idx) idx /\
  slide_theme s = req_theme req.
Proof.
  unfold assemble_slide, generateSlideContent; simpl. repeat split.
Qed.

(** ** Content of one slide *)

Lemma length_map_attempt {A B} (f : A -> attempt B) (l : list A) (l' : list B) :
  map_attempt f l = inr l' -> length l' = length l.
Proof.
  revert l'; induction l as [|a l IH]; intros l'; simpl.
  - now intros [= <-].
  - destruct (f a) as [e|b]; simpl; [discriminate|].
    destruct (map_attempt f l) as [e|bs]; simpl; [discriminate|].
    intros [= <-]. simpl. f_equal. now apply IH.
Qed.

Lemma items_if_array (v : value) : (if isArray v then items_of v else []) = items_of v.
Proof.
  now destruct v.
Qed.

(** On the success path of a slide that is not the third, the bullets are
    the trimmed paragraphs, cut at the cap. *)
Lemma paragraphs_cut_at_cap (parsed : value) (amountOfText : string) (slideIndex : nat)
    (c : slide_content) :
  slideIndex <> 2%nat ->
  content_of_parsed parsed amountOfText slideIndex = inr c ->
  length (bullets c) =
  Nat.min (maxParagraphs slideIndex amountOfText) (length (paragraphs_of parsed)).
Proof.
  intros Hidx. apply Nat.eqb_neq in Hidx.
  unfold content_of_parsed, paragraphs_of. rewrite Hidx.
  destruct (get parsed "paragraphs") as [e|pv]; simpl; [discriminate|].
  rewrite items_if_array.
  destruct (map_attempt call_trim (items_of pv)) as [e|bs] eqn:Hmap; simpl; [discriminate|].
  intros [= <-]. simpl. unfold slice0.
  rewrite length_firstn. now rewrite (length_map_attempt _ _ _ Hmap).
Qed.

(** What [generateSlideContent] returns, by the path taken. *)
Lemma generateSlideContent_paths (create : chat_request -> completion)
    (slideTitle : value) (topic amountOfText : string) (slideIndex : nat) :
  let result := fst (generateSlideContent create slideTitle topic amountOfText slideIndex) in
  match content_try (create (slide_request slideTitle topic amountOfText slideIndex))
          amountOfText slideIndex with
  | inl _ => result = content_fallback slideIndex
  | inr c => result = c
  end.
Proof.
  unfold generateSlideContent; simpl.
  now destruct (content_try _ _ _).
Qed.

Lemma content_try_parsed (answer : completion) (amountOfText : string) (slideIndex : nat)
    (c : slide_content) :
  content_try answer amountOfText slideIndex = inr c ->
  exists parsed, answer = Parsed parsed /\
                 content_of_parsed parsed amountOfText slideIndex = inr c.
Proof.
  destruct answer as [| | |parsed]; simpl; try discriminate.
  intros H. now exists parsed.
Qed.

(** C1, as stated, fails on the success path: when the model answers
    [{paragraphs: []}] for the first slide, its bullets array is empty. *)
Lemma first_slide_can_be_empty :
  let w := replying_world (VArr [VStr "Sunlight"]) (VObj [("paragraphs", VArr [])]) in
  exists s, nth_error (slides (deck_of w solar_request)) 0 = Some s /\
            fst (api_generate w solar_request) = Json (deck_of w solar_request) /\
            slide_bullets s = [] /\
            length (slide_bullets s) <> 1%nat.
Proof.
  eexists. split; [reflexivity|].
  split; [apply api_generate_answers; reflexivity|].
  split; [reflexivity | discriminate].
Qed.

(** C1 (amended). For every request and every amountOfText, in the deck
    the route answers with, the slide at index 0 has layout "image-left"
    and a bullets array of at most 1 entry: exactly 1 on the fallback path
    of content generation, and on the success path as many as the answer
    has paragraphs, cut at 1 (so exactly 1 when the answer has a paragraph,
    none when it has none).  The route answers with a deck when every slide
    title can be converted to a string; it answers with status 500, and no
    slides, when a generated title cannot. *)
Theorem first_slide_layout_and_content (w : world) (req : generation_request) :
  (titles_printable w req = true -> exists body, fst (api_generate w req) = Json body) /\
  (titles_printable w req = false -> fst (api_generate w req) = Status500 TypeError) /\
  forall body, fst (api_generate w req) = Json body ->
    forall s, nth_error (slides body) 0 = Some s ->
      let create := content_create w 0 in
      let topic := req_title req in
      let amountOfText := req_amountOfText req in
      slide_layout s = VStr "image-left" /\
      (length (slide_bullets s) <= 1)%nat /\
      (content_falls_back create (slide_title s) topic amountOfText 0 ->
       length (slide_bullets s) = 1%nat) /\
      (forall parsed c,
          create (slide_request (slide_title s) topic amountOfText 0) = Parsed parsed ->
          content_of_parsed parsed amountOfText 0 = inr c ->
          length (slide_bullets s) = Nat.min 1 (length (paragraphs_of parsed))).
Proof.
  split; [intros H; eexists; now apply api_generate_answers|].
  split; [intros H; now rewrite api_generate_response, H|].
  intros body Hbody. apply api_generate_deck in Hbody. destruct Hbody as [-> _].
  intros s Hs. apply nth_slide in Hs. destruct Hs as (t & _ & ->).
  destruct (assemble_slide_fields w req 0 t) as (_ & Ht & Hb & Hl & _).
  cbv zeta in *. rewrite Ht, Hb, Hl. clear Ht Hb Hl.
  pose proof (generateSlideContent_paths (content_create w 0) t (req_title req)
                (req_amountOfText req) 0) as Hpath.
  cbv zeta in Hpath. unfold content_falls_back.
  split; [reflexivity|].
  destruct (content_try _ _ _) as [e|c] eqn:Htry; rewrite Hpath.
  - split; [simpl; lia|]. split; [reflexivity|].
    intros parsed c Hans Hc. unfold content_try in Htry. rewrite Hans in Htry.
    simpl in Htry. congruence.
  - destruct (content_try_parsed _ _ _ _ Htry) as (parsed & Hans & Hc).
    pose proof (paragraphs_cut_at_cap parsed (req_amountOfText req) 0 c
                  ltac:(discriminate) Hc) as Hlen.
    change (maxParagraphs 0 (req_amountOfText req)) with 1%nat in Hlen.
    split; [lia|]. split; [intros [err Herr]; discriminate|].
    intros parsed' c' Hans' _. rewrite Hans in Hans'. injection Hans' as <-.
    exact Hlen.
Qed.

Lemma first_slide_layout_and_content_witness :
  titles_printable offline_world solar_request = true /\
  exists body s,
    fst (api_generate offline_world solar_request) = Json body /\
    nth_error (slides body) 0 = Some s /\
    slide_layout s = VStr "image-left" /\
    length (slide_bullets s) = 1%nat.
Proof.
  split; [reflexivity|].
  destruct (first_slide_layout_and_content offline_world solar_request)
    as (Hanswers & _ & Hfirst).
  destruct (Hanswers eq_refl) as (body & Hbody).
  pose proof (Hfirst body Hbody) as Hslide.
  pose proof Hbody as Hdeck. apply api_generate_deck in Hdeck. destruct Hdeck as [-> _].
  eexists. eexists. split; [exact Hbody|]. split; [reflexivity|].
  destruct (Hslide _ eq_refl) as (Hlayout & _ & Hfallback & _).
  split; [exact Hlayout|].
  apply Hfallback. exists Rejected. reflexivity.
Defined.

(** C2, as stated, fails on the error-fallback path: for Concise the
    fallback of a slide other than the first and the third has 2 entries,
    above the Concise maximum of 1. *)
Lemma concise_fallback_has_two :
  ~ (forall create slideTitle topic amountOfText slideIndex,
        slideIndex <> 0%nat -> slideIndex <> 2%nat ->
        let result :=
          fst (generateSlideContent create slideTitle topic amountOfText slideIndex) in
        (length (bullets result) <= maxParagraphs slideIndex amountOfText)%nat /\
        (amountOfText = "Concise" -> length (bullets result) = 1%nat)).
Proof.
  intros H.
  destruct (H (fun _ => Rejects) (VStr "Panels") "Solar Power" "Concise" 1%nat)
    as [Hcap _]; try discriminate.
  vm_compute in Hcap. lia.
Qed.

(** C2 (amended). For every slide index other than 0 and 2 and every
    amountOfText: the maximum is 2 for Extensive, Detailed and Minimal and 1
    for Concise; on the success path the bullets array is the answer's
    paragraphs cut at that maximum, so it has at most that many entries (at
    most 1 for Concise); on the error-fallback path it has exactly 2
    entries, whatever the amountOfText. *)
Theorem other_slides_bullet_count (create : chat_request -> completion)
    (slideTitle : value) (topic amountOfText : string) (slideIndex : nat) :
  slideIndex <> 0%nat -> slideIndex <> 2%nat ->
  let result := fst (generateSlideContent create slideTitle topic amountOfText slideIndex) in
  (maxParagraphs slideIndex "Extensive" = 2 /\ maxParagraphs slideIndex "Detailed" = 2 /\
   maxParagraphs slideIndex "Concise" = 1 /\ maxParagraphs slideIndex "Minimal" = 2)%nat /\
  match content_try (create (slide_request slideTitle topic amountOfText slideIndex))
          amountOfText slideIndex with
  | inr c =>
      result = c /\
      (exists parsed,
          create (slide_request slideTitle topic amountOfText slideIndex) = Parsed parsed /\
          length (bullets result) =
          Nat.min (maxParagraphs slideIndex amountOfText) (length (paragraphs_of parsed))) /\
      (length (bullets result) <= maxParagraphs slideIndex amountOfText)%nat /\
      (amountOfText = "Concise" -> length (bullets result) <= 1)%nat
  | inl _ => length (bullets result) = 2%nat
  end.
Proof.
  intros H0 H2 result.
  destruct (slide_index_cases slideIndex H0 H2) as [E0 E2].
  split.
  { unfold maxParagraphs. rewrite E0, E2. repeat split. }
  pose proof (generateSlideContent_paths create slideTitle topic amountOfText slideIndex)
    as Hpath.
  cbv zeta in Hpath. fold result in Hpath.
  destruct (content_try _ _ _) as [e|c] eqn:Htry.
  - rewrite Hpath. unfold content_fallback. rewrite E0. reflexivity.
  - destruct (content_try_parsed _ _ _ _ Htry) as (parsed & Hans & Hc).
    pose proof (paragraphs_cut_at_cap parsed amountOfText slideIndex c H2 Hc) as Hlen.
    rewrite Hpath.
    split; [reflexivity|]. split; [now exists parsed|]. split; [lia|].
    intros ->. unfold maxParagraphs in Hlen. rewrite E0, E2 in Hlen.
    simpl in Hlen. destruct (length (paragraphs_of parsed)); lia.
Qed.

Lemma other_slides_bullet_count_witness :
  (1 <> 0 /\ 1 <> 2)%nat /\
  (length (bullets (fst (generateSlideContent
                           (fun _ => Parsed (VObj [("paragraphs",
                                                    VArr [VStr " one "; VStr "two"])]))
                           (VStr "Panels") "Solar Power" "Concise" 1))) <= 1)%nat.
Proof.
  split; [split; discriminate|].
  pose proof (other_slides_bullet_count
                (fun _ => Parsed (VObj [("paragraphs", VArr [VStr " one "; VStr "two"])]))
                (VStr "Panels") "Solar Power" "Concise" 1%nat
                ltac:(discriminate) ltac:(discriminate)) as H.
  destruct H as (_ & H). simpl in H.
  destruct H as (_ & _ & _ & H). apply H. reflexivity.
Defined.

(** ** Fields of a slide record *)

Lemma assemble_slide_image (w : world) (req : generation_request) (idx : nat) (t : value)
    (img : slide_image) :
  slide_image_field (fst (assemble_slide w req idx t)) = Some img ->
  image_alt img = t /\
  image_source img = req_imageSource req /\
  image_style img = req_imageStyle req.
Proof.
  unfold assemble_slide, generateSlideContent. cbn [fst slide_image_field].
  match goal with |- context [truthy ?u] => destruct (truthy u) end; [|discriminate].
  intros [= <-]. repeat split.
Qed.

(** C10. In every deck [/api/generate] answers with, the slide at
    position [i] (counted from 0) has id "slide-" followed by [i + 1] and
    the theme of the request, and, when it has an image field, that field's
    alt is the slide's title, its source the request's imageSource and its
    style the request's imageStyle.  (The route answers with a deck when
    every slide title can be converted to a string, and with status 500,
    which holds no slide record, otherwise.) *)
Theorem slide_record_fields (w : world) (req : generation_request) :
  (titles_printable w req = true -> exists body, fst (api_generate w req) = Json body) /\
  (titles_printable w req = false -> fst (api_generate w req) = Status500 TypeError) /\
  forall body, fst (api_generate w req) = Json body ->
    forall i s, nth_error (slides body) i = Some s ->
      slide_id s = "slide-" ++ decimal_nat (i + 1) /\
      slide_theme s = req_theme req /\
      forall img, slide_image_field s = Some img ->
        image_alt img = slide_title s /\
        image_source img = req_imageSource req /\
        image_style img = req_imageStyle req.
Proof.
  split; [intros H; eexists; now apply api_generate_answers|].
  split; [intros H; now rewrite api_generate_response, H|].
  intros body Hbody. apply api_generate_deck in Hbody. destruct Hbody as [-> _].
  intros i s Hs. apply nth_slide in Hs. destruct Hs as (t & _ & ->).
  destruct (assemble_slide_fields w req i t) as (Hid & Ht & _ & _ & Hth).
  cbv zeta in *. rewrite Hid, Hth, Ht.
  repeat split; try apply (assemble_slide_image w req i t img); assumption.
Qed.

Lemma slide_record_fields_witness :
  titles_printable offline_world illustrated_request = true /\
  exists body s img,
    fst (api_generate offline_world illustrated_request) = Json body /\
    nth_error (slides body) 1 = Some s /\
    slide_image_field s = Some img /\
    slide_id s = "slide-2" /\
    slide_theme s = Some "modern" /\
    image_alt img = slide_title s /\
    image_source img = "Ideogram" /\
    image_style img = Some "flat".
Proof.
  split; [reflexivity|].
  destruct (slide_record_fields offline_world illustrated_request)
    as (Hanswers & _ & Hfields).
  destruct (Hanswers eq_refl) as (body & Hbody).
  pose proof (Hfields body Hbody) as Hall.
  pose proof Hbody as Hdeck. apply api_generate_deck in Hdeck. destruct Hdeck as [-> _].
  do 3 eexists. split; [exact Hbody|]. split; [reflexivity|]. split; [reflexivity|].
  destruct (Hall 1%nat _ eq_refl) as (Hid & Hth & Himg).
  destruct (Himg _ eq_refl) as (Halt & Hsrc & Hsty).
  split; [exact Hid|]. split; [exact Hth|].
  split; [exact Halt|]. split; [exact Hsrc | exact Hsty].
Defined.

(** ** When the outline generator runs *)

Lemma outline_calls_of_slides (w : world) (req : generation_request)
    (titles : list value) (start : nat) :
  outline_calls
    (concat (map_index_from start
               (fun i t => if printable t then [content_call_of req i t] else [])
               titles)) = [].
Proof.
  revert start; induction titles as [|t titles IH]; intros start; [reflexivity|].
  cbn [map_index_from concat].
  unfold outline_calls in *. rewrite flat_map_app, IH.
  now destruct (printable t).
Qed.

Lemma outline_calls_api_generate (w : world) (req : generation_request) :
  outline_calls (snd (api_generate w req)) = outline_calls (snd (outlineTitles w req)).
Proof.
  rewrite log_of_api_generate.
  pose proof (outline_calls_of_slides w req (fst (outlineTitles w req)) 0) as Hnone.
  unfold outline_calls in *. unfold map_index.
  rewrite flat_map_app, Hnone. apply app_nil_r.
Qed.

(** The condition of the ternary, read off the entries. *)
Lemma supplied_condition (outline : option (list outline_entry)) :
  has_length outline && first_has_title outline =
  match entries outline with
  | [] => false
  | s :: _ => has_title s
  end.
Proof.
  destruct outline as [[|s l]|]; reflexivity.
Qed.

Lemma outlineTitles_cases (w : world) (req : generation_request) :
  match entries (req_outline req) with
  | [] =>
      outlineTitles w req =
      generateOutline (outline_create w) (req_title req)
        (or_number (req_slideCount req) 5) (req_amountOfText req)
  | s :: rest =>
      if has_title s
      then outlineTitles w req = (supplied_titles req, [])
      else outlineTitles w req =
           generateOutline (outline_create w) (req_title req)
             (Z.of_nat (length (s :: rest))) (req_amountOfText req)
  end.
Proof.
  unfold outlineTitles, supplied_titles, numSlides.
  rewrite supplied_condition.
  destruct (req_outline req) as [[|s l]|]; simpl; try reflexivity.
  destruct (has_title s); reflexivity.
Qed.

Lemma titles_in_order (w : world) (req : generation_request) (titles : list value)
    (start : nat) :
  map slide_title
    (map_index_from start (fun idx t => fst (assemble_slide w req idx t)) titles) = titles.
Proof.
  revert start; induction titles as [|t titles IH]; intros start; [reflexivity|].
  cbn [map_index_from map]. rewrite IH.
  now destruct (assemble_slide_fields w req start t) as (_ & -> & _).
Qed.

Lemma deck_titles (w : world) (req : generation_request) :
  map slide_title (slides (deck_of w req)) = fst (outlineTitles w req).
Proof.
  apply titles_in_order.
Qed.

Lemma deck_length (w : world) (req : generation_request) :
  length (slides (deck_of w req)) = length (fst (outlineTitles w req)).
Proof.
  apply length_map_index_from.
Qed.

(** C9, as stated, fails under either reading of "its entries lack a
    title".  The outline [[{title: "Sun"}, {}]] has an entry without a
    title, yet the generator is not invoked; the outline
    [[{}, {title: "Sun"}]] has an entry with a title, yet it is invoked.
    Only the first entry is looked at. *)
Lemma invocation_looks_at_first_entry_only :
  ~ (forall w req,
        outline_generator_invoked w req <->
        entries (req_outline req) = [] \/
        Exists (fun s => has_title s = false) (entries (req_outline req))) /\
  ~ (forall w req,
        outline_generator_invoked w req <->
        entries (req_outline req) = [] \/
        Forall (fun s => has_title s = false) (entries (req_outline req))).
Proof.
  split; intros H.
  - destruct (H offline_world illustrated_request) as [_ Hinv].
    apply Hinv; [|reflexivity].
    right. apply Exists_cons_tl, Exists_cons_hd. reflexivity.
  - destruct (H offline_world untitled_first_request) as [Hinv _].
    destruct Hinv as [Hnil|Hall]; [discriminate | discriminate |].
    inversion Hall as [|? ? _ Htail]. inversion Htail as [|? ? Hsun _].
    discriminate.
Qed.

(** C9 (amended). The outline generator is invoked if and only if the
    request's outline is absent or empty or its first entry has no
    (non-empty) title.  In particular, for a request whose outline is
    non-empty and whose every entry has a title, no outline-generation call
    is made and the supplied titles are used as they are, in order. *)
Theorem outline_generator_invoked_iff (w : world) (req : generation_request) :
  (outline_generator_invoked w req <->
   match entries (req_outline req) with
   | [] => True
   | s :: _ => has_title s = false
   end) /\
  (entries (req_outline req) <> [] ->
   Forall (fun s => has_title s = true) (entries (req_outline req)) ->
   ~ outline_generator_invoked w req /\
   exists body, fst (api_generate w req) = Json body /\
                map slide_title (slides body) = supplied_titles req).
Proof.
  unfold outline_generator_invoked.
  rewrite outline_calls_api_generate.
  pose proof (outlineTitles_cases w req) as Hcases.
  pose proof (deck_titles w req) as Htitles.
  destruct (entries (req_outline req)) as [|s rest].
  - rewrite Hcases. split; [split; [trivial | discriminate]|].
    intros Hne; now destruct Hne.
  - destruct (has_title s) eqn:Hs; rewrite Hcases in *.
    + split; [split; [intros Hinv; now destruct Hinv | discriminate]|].
      intros _ _. split; [intros Hinv; now destruct Hinv|].
      exists (deck_of w req). split; [|exact Htitles].
      apply api_generate_answers. unfold titles_printable. rewrite Hcases.
      apply supplied_titles_printable.
    + split; [split; [reflexivity | discriminate]|].
      intros _ Hall. inversion Hall; congruence.
Qed.

Lemma outline_generator_invoked_iff_witness :
  entries (req_outline titled_request) <> [] /\
  Forall (fun s => has_title s = true) (entries (req_outline titled_request)) /\
  ~ outline_generator_invoked offline_world titled_request /\
  exists body, fst (api_generate offline_world titled_request) = Json body /\
               map slide_title (slides body) = [VStr "Sun"; VStr "Panels"].
Proof.
  assert (Hall : Forall (fun s => has_title s = true)
                   (entries (req_outline titled_request)))
    by (repeat constructor).
  split; [discriminate|]. split; [exact Hall|].
  apply (outline_generator_invoked_iff offline_world titled_request);
    [discriminate | exact Hall].
Defined.

(** ** How many titles are asked for *)

Lemma append_assoc (a b c : string) : (a ++ b) ++ c = a ++ (b ++ c).
Proof.
  induction a as [|x a IH]; simpl; congruence.
Qed.

Lemma outline_prompt_opening (topic : string) (numSlides : Z) :
  exists rest,
    outline_prompt topic numSlides =
    "Generate " ++ decimal numSlides ++ " professional slide titles for " ++ rest.
Proof.
  unfold outline_prompt, unlines.
  cbn [String.concat].
  eexists. rewrite !append_assoc. reflexivity.
Qed.

(** C4, as stated, fails for the request with an empty outline and
    slideCount 3: the generator is asked for 3 titles, not for
    max(0, 3, 5) = 5, and with the completion API down it produces 3. *)
Lemma three_titles_asked_not_five :
  ~ (forall w req,
        match entries (req_outline req) with
        | [] => True
        | s :: _ => has_title s = false
        end ->
        let supplied := Z.of_nat (length (entries (req_outline req))) in
        let count := match req_slideCount req with Some z => z | None => 0%Z end in
        let N := Z.max (Z.max supplied count) 5 in
        outline_calls (snd (api_generate w req)) = [outline_request (req_title req) N]) /\
  ~ (forall w req,
        match entries (req_outline req) with
        | [] => True
        | s :: _ => has_title s = false
        end ->
        let supplied := Z.of_nat (length (entries (req_outline req))) in
        let count := match req_slideCount req with Some z => z | None => 0%Z end in
        let N := Z.max (Z.max supplied count) 5 in
        exists body, fst (api_generate w req) = Json body /\
                     Z.of_nat (length (slides body)) = N).
Proof.
  split; intros H.
  - specialize (H offline_world solar_request I).
    vm_compute in H. discriminate.
  - destruct (H offline_world solar_request I) as (body & Hbody & Hlen).
    apply api_generate_deck in Hbody. destruct Hbody as [-> _].
    vm_compute in Hlen. discriminate.
Qed.

(** C4 (amended). When the outline generator is invoked (the outline is
    absent or empty, or its first entry has no title), the number of titles
    it is asked for is the length of the supplied outline when that is not
    empty, else slideCount when that is present and not 0, else 5; for such
    a number that is a safe integer (as every array length is), the prompt
    opens with its decimal digits.  The number of titles it produces is not
    tied to it: it is the length of the array the model returns, 0 when the
    answer is no array, and 3 when the call fails; a deck the route answers
    with has that many slides. *)
Theorem outline_request_count (w : world) (req : generation_request) :
  match entries (req_outline req) with
  | [] => True
  | s :: _ => has_title s = false
  end ->
  let N :=
    match entries (req_outline req) with
    | _ :: _ => Z.of_nat (length (entries (req_outline req)))
    | [] =>
        match req_slideCount req with
        | Some z => if (z =? 0)%Z then 5%Z else z
        | None => 5%Z
        end
    end in
  safe_integer N = true ->
  let request := outline_request (req_title req) N in
  let produced :=
    match outline_create w request with
    | Rejects | NoContent | Unparsable => 3%nat
    | Parsed (VArr items) => length items
    | Parsed _ => 0%nat
    end in
  outline_calls (snd (api_generate w req)) = [request] /\
  (exists rest,
      user_content request =
      "Generate " ++ decimal N ++ " professional slide titles for " ++ rest) /\
  fst (outlineTitles w req) =
    fst (generateOutline (outline_create w) (req_title req) N (req_amountOfText req)) /\
  length (fst (outlineTitles w req)) = produced /\
  (forall body, fst (api_generate w req) = Json body -> length (slides body) = produced).
Proof.
  intros Hinv N Hsafe request produced.
  assert (Hout : outlineTitles w req =
                 generateOutline (outline_create w) (req_title req) N (req_amountOfText req)).
  { pose proof (outlineTitles_cases w req) as Hcases. subst N.
    destruct (entries (req_outline req)) as [|s rest]; [exact Hcases|].
    rewrite Hinv in Hcases. exact Hcases. }
  assert (Hlen : length (fst (outlineTitles w req)) = produced).
  { rewrite Hout, outline_titles_by_answer. subst produced. fold request.
    destruct (outline_create w request) as [| | |parsed]; try reflexivity.
    destruct parsed; reflexivity. }
  split; [|split; [|split; [|split]]].
  - rewrite outline_calls_api_generate, Hout. reflexivity.
  - apply outline_prompt_opening.
  - now rewrite Hout.
  - exact Hlen.
  - intros body Hbody. apply api_generate_deck in Hbody. destruct Hbody as [-> _].
    now rewrite deck_length.
Qed.

Lemma outline_request_count_witness :
  has_title {| entry_title := None |} = false /\
  safe_integer 2 = true /\ safe_integer 3 = true /\
  outline_calls (snd (api_generate offline_world untitled_first_request)) =
    [outline_request "Solar Power" 2] /\
  outline_calls (snd (api_generate offline_world solar_request)) =
    [outline_request "Solar Power" 3] /\
  length (fst (outlineTitles offline_world solar_request)) = 3%nat.
Proof.
  split; [reflexivity|]. split; [reflexivity|]. split; [reflexivity|].
  split; [|split].
  - apply (outline_request_count offline_world untitled_first_request);
      reflexivity.
  - apply (outline_request_count offline_world solar_request); [exact I | reflexivity].
  - apply (outline_request_count offline_world solar_request); [exact I | reflexivity].
Defined.

(** ** The end-to-end scenario *)

Lemma random_index_in_range (random : Q) :
  in_unit_interval random ->
  (0 <= Qfloor (random * inject_Z (Z.of_nat (length layoutOptions))) < 4)%Z.
Proof.
  intros [Hlo Hhi].
  change (inject_Z (Z.of_nat (length layoutOptions))) with (inject_Z 4).
  split.
  - change 0%Z with (Qfloor 0). apply Qfloor_resp_le.
    apply Qmult_le_0_compat; [exact Hlo | discriminate].
  - rewrite Zlt_Qlt.
    apply Qle_lt_trans with (random * inject_Z 4)%Q; [apply Qfloor_le|].
    setoid_replace (inject_Z 4) with (1 * inject_Z 4)%Q at 2 by ring.
    apply Qmult_lt_r; [reflexivity | exact Hhi].
Qed.

Lemma choose_layout_option (random : Q) (idx : nat) :
  in_unit_interval random -> is_layout_option (choose_layout random idx).
Proof.
  intros Hr. unfold choose_layout, is_layout_option.
  destruct (idx =? 0)%nat.
  - exists "image-left". split; [now left | reflexivity].
  - pose proof (random_index_in_range random Hr) as Hi.
    set (i := Qfloor _) in *.
    assert (Hcases : i = 0%Z \/ i = 1%Z \/ i = 2%Z \/ i = 3%Z) by lia.
    destruct Hcases as [-> | [-> | [-> | ->]]]; eexists; (split; [|reflexivity]);
      simpl; tauto.
Qed.

Lemma no_image_without_source (w : world) (req : generation_request) (idx : nat) (t : value) :
  req_imageSource req = "None" ->
  slide_image_field (fst (assemble_slide w req idx t)) = None.
Proof.
  intros Hsrc. unfold assemble_slide, generateSlideContent; simpl.
  rewrite Hsrc. reflexivity.
Qed.

Lemma sample_draws_in_unit_interval (i : nat) :
  in_unit_interval (Z.of_nat (i mod 7) # 7).
Proof.
  pose proof (Nat.mod_upper_bound i 7 ltac:(discriminate)) as Hb.
  unfold in_unit_interval, Qle, Qlt; cbn [Qnum Qden]. lia.
Qed.

(** C5, as stated, fails: the number of slides is the number of titles the
    model returns, whatever the request asked for.  When the outline answer
    to the Solar Power request is the one-title array [["Sunlight"]], the
    deck has 1 slide. *)
Lemma solar_deck_may_have_one_slide :
  ~ (forall w, (forall i, in_unit_interval (Math_random w i)) ->
        exists body, fst (api_generate w solar_request) = Json body /\
                     length (slides body) = 3%nat).
Proof.
  intros H.
  destruct (H (replying_world (VArr [VStr "Sunlight"]) (VObj [("paragraphs", VArr [])]))
              sample_draws_in_unit_interval) as (body & Hbody & Hlen).
  apply api_generate_deck in Hbody. destruct Hbody as [-> _].
  vm_compute in Hlen. discriminate.
Qed.

(** C5 (amended). For the request {title: "Solar Power", outline: [],
    slideCount: 3, amountOfText: "Minimal", imageSource: "None"}, the
    outline generator returns exactly 3 titles when its call fails (the
    three fallback titles), as many as the model's array has otherwise, and
    none when the answer is no array.  When every one of them can be
    converted to a string (as the fallback titles and all strings can), the
    response holds one SlideRecord per title, in title order, slide 1 has
    layout "image-left", every slide's layout is one of the four options,
    no slide has an image field, and meta.title is "Solar Power".  When a
    title the model returned cannot be converted, the route answers with
    status 500. *)
Theorem solar_power_scenario (w : world) :
  (forall i, in_unit_interval (Math_random w i)) ->
  let titles := fst (generateOutline (outline_create w) "Solar Power" 3 "Minimal") in
  length titles =
    match outline_create w (outline_request "Solar Power" 3) with
    | Rejects | NoContent | Unparsable => 3%nat
    | Parsed (VArr items) => length items
    | Parsed _ => 0%nat
    end /\
  (failed (outline_create w (outline_request "Solar Power" 3)) ->
   forallb printable titles = true) /\
  (Forall (fun t => is_string t = true) titles -> forallb printable titles = true) /\
  if forallb printable titles
  then
    exists body,
      fst (api_generate w solar_request) = Json body /\
      map slide_title (slides body) = titles /\
      length (slides body) = length titles /\
      (forall s, nth_error (slides body) 0 = Some s -> slide_layout s = VStr "image-left") /\
      Forall (fun s => is_layout_option (slide_layout s)) (slides body) /\
      Forall (fun s => slide_image_field s = None) (slides body) /\
      meta_title (meta body) = "Solar Power"
  else fst (api_generate w solar_request) = Status500 TypeError.
Proof.
  intros Hrandom titles.
  assert (Htitles : fst (outlineTitles w solar_request) = titles) by reflexivity.
  split.
  { subst titles. rewrite outline_titles_by_answer.
    destruct (outline_create w (outline_request "Solar Power" 3)) as [| | |parsed];
      try reflexivity.
    destruct parsed; reflexivity. }
  split.
  { intros Hfailed. subst titles. rewrite outline_titles_by_answer.
    destruct (outline_create w (outline_request "Solar Power" 3)); simpl in *;
      try reflexivity; contradiction. }
  split.
  { intros Hstrings. apply strings_printable.
    eapply Forall_impl; [|exact Hstrings]. intros t Ht. now left. }
  pose proof (api_generate_response w solar_request) as Hresp.
  unfold titles_printable in Hresp. rewrite Htitles in Hresp.
  destruct (forallb printable titles); [|exact Hresp].
  exists (deck_of w solar_request). split; [exact Hresp|].
  split; [apply deck_titles|]. split; [apply deck_length|].
  split.
  { intros s Hs. apply nth_slide in Hs. destruct Hs as (t & _ & ->). reflexivity. }
  split.
  - apply Forall_forall. intros s Hin.
    apply In_nth_error in Hin. destruct Hin as (i & Hs).
    apply nth_slide in Hs. destruct Hs as (t & _ & ->).
    destruct (assemble_slide_fields w solar_request i t) as (_ & _ & _ & -> & _).
    apply choose_layout_option, Hrandom.
  - split; [|reflexivity].
    apply Forall_forall. intros s Hin.
    apply In_nth_error in Hin. destruct Hin as (i & Hs).
    apply nth_slide in Hs. destruct Hs as (t & _ & ->).
    now apply no_image_without_source.
Qed.

Lemma solar_power_scenario_witness :
  (forall i, in_unit_interval (Math_random offline_world i)) /\
  exists body,
    fst (api_generate offline_world solar_request) = Json body /\
    map slide_title (slides body) =
      [ VStr "Introduction to Solar Power"; VStr "Key Concepts of Solar Power";
        VStr "Applications of Solar Power" ] /\
    length (slides body) = 3%nat /\
    Forall (fun s => is_layout_option (slide_layout s)) (slides body) /\
    Forall (fun s => slide_image_field s = None) (slides body) /\
    meta_title (meta body) = "Solar Power".
Proof.
  split; [exact sample_draws_in_unit_interval|].
  destruct (solar_power_scenario offline_world sample_draws_in_unit_interval)
    as (_ & _ & _ & Hdeck).
  cbn in Hdeck.
  destruct Hdeck as (body & Hbody & Htitles & Hlen & _ & Hlayouts & Himages & Hmeta).
  exists body.
  split; [exact Hbody|]. split; [exact Htitles|]. split; [exact Hlen|].
  split; [exact Hlayouts|]. split; [exact Himages | exact Hmeta].
Defined.

(** * Further properties of the helpers *)

(** ** What image generation returns *)

Lemma generateIdeogramImage_saved (env_key : option string) (io : image_io)
    (prompt style slideIndex : value) (filename : string) :
  image_saved_as env_key io prompt style slideIndex filename ->
  generateIdeogramImage env_key io prompt style slideIndex =
  VStr ("/uploads/" ++ filename).
Proof.
  intros (key & p & remote & -> & Hkey & -> & Hstyle & Hindex & Hpost & Hremote & -> & Hdl).
  unfold generateIdeogramImage, ideogram_try, call_generateImageFilename, to_string,
    bind, ret. cbv zeta.
  cbn [printable]. rewrite Hstyle, Hkey. cbv beta iota.
  rewrite Hpost. cbv beta iota. rewrite Hremote, Hindex.
  unfold downloadAndSaveImage. cbv beta iota. rewrite Hdl. reflexivity.
Qed.

Lemma generateIdeogramImage_cases (env_key : option string) (io : image_io)
    (prompt style slideIndex : value) :
  generateIdeogramImage env_key io prompt style slideIndex = VNull \/
  exists filename,
    image_saved_as env_key io prompt style slideIndex filename /\
    generateIdeogramImage env_key io prompt style slideIndex =
    VStr ("/uploads/" ++ filename).
Proof.
  unfold generateIdeogramImage, ideogram_try, call_generateImageFilename, to_string,
    bind, ret, throw. cbv zeta.
  destruct (printable prompt) eqn:Hprompt; [|left; reflexivity].
  destruct (printable style) eqn:Hstyle; [|left; reflexivity].
  destruct env_key as [key|]; [|left; reflexivity].
  destruct (non_empty key) eqn:Hkey; [|left; reflexivity].
  cbv beta iota.
  destruct (axios_post io key prompt) as [|remote] eqn:Hpost; [left; reflexivity|].
  cbv beta iota.
  destruct (truthy remote) eqn:Hremote; [|left; reflexivity].
  destruct prompt as [| | | |p| |]; try (left; reflexivity).
  destruct (printable (default_index slideIndex)) eqn:Hindex; [|left; reflexivity].
  unfold downloadAndSaveImage. cbv beta iota.
  destruct (axios_get_and_write io remote _) eqn:Hdl; [|left; reflexivity].
  right. eexists. split; [|reflexivity].
  exists key, p, remote. repeat split; assumption.
Qed.

(** X1. [generateIdeogramImage] returns the local URL [/uploads/<filename>]
    exactly when the prompt is a string, the style and the slide index (0
    when it is left out) can be converted to strings, the key is set, the
    image API answers with a URL and the download is written; in every other
    case (missing or empty key, rejected call, no URL, a prompt that is no
    string, a style or index that cannot be printed, failed download) it
    returns [null].  The filename is the modelled one for a slide index
    whose numbers are safe integers. *)
Theorem generateIdeogramImage_result (env_key : option string) (io : image_io)
    (prompt style slideIndex : value) :
  plain (default_index slideIndex) = true ->
  let result := generateIdeogramImage env_key io prompt style slideIndex in
  (forall filename,
      image_saved_as env_key io prompt style slideIndex filename ->
      result = VStr ("/uploads/" ++ filename)) /\
  (result = VNull \/
   exists filename,
     image_saved_as env_key io prompt style slideIndex filename /\
     result = VStr ("/uploads/" ++ filename)) /\
  (result = VNull ->
   forall filename, ~ image_saved_as env_key io prompt style slideIndex filename) /\
  (printable style = false \/ printable (default_index slideIndex) = false ->
   result = VNull).
Proof.
  intros _ result.
  assert (Hsaved : forall filename,
             image_saved_as env_key io prompt style slideIndex filename ->
             result = VStr ("/uploads/" ++ filename))
    by (intros filename H; now apply generateIdeogramImage_saved).
  split; [exact Hsaved|]. split; [apply generateIdeogramImage_cases|].
  split.
  - intros Hnull filename H. apply Hsaved in H. congruence.
  - intros Hbad.
    destruct (generateIdeogramImage_cases env_key io prompt style slideIndex)
      as [Hnull | (filename & Hs & _)]; [exact Hnull|].
    destruct Hs as (key & p & remote & _ & _ & _ & Hstyle & Hindex & _).
    destruct Hbad; congruence.
Qed.

Lemma generateIdeogramImage_result_witness :
  plain (default_index VUndefined) = true /\
  image_saved_as (Some "key") sample_io (VStr "Solar Power flat") (VStr "flat") VUndefined
    "slide_0_Solar_Power_flat_1700000000000.jpg" /\
  generateIdeogramImage (Some "key") sample_io (VStr "Solar Power flat") (VStr "flat")
    VUndefined =
    VStr "/uploads/slide_0_Solar_Power_flat_1700000000000.jpg" /\
  generateIdeogramImage (Some "key") sample_io (VStr "Solar Power flat")
    (VObj [("toString", VNum 1)]) VUndefined = VNull.
Proof.
  assert (H : image_saved_as (Some "key") sample_io (VStr "Solar Power flat") (VStr "flat")
                VUndefined "slide_0_Solar_Power_flat_1700000000000.jpg").
  { exists "key", "Solar Power flat", (VStr "https://ideogram.ai/api/images/1.png").
    repeat split. }
  split; [reflexivity|]. split; [exact H|]. split.
  - apply (generateIdeogramImage_result (Some "key") sample_io (VStr "Solar Power flat")
             (VStr "flat") VUndefined eq_refl).
    exact H.
  - apply (generateIdeogramImage_result (Some "key") sample_io (VStr "Solar Power flat")
             (VObj [("toString", VNum 1)]) VUndefined eq_refl).
    left. reflexivity.
Defined.

(** ** What a filename is made of *)

Lemma list_ascii_of_append (a b : string) :
  list_ascii_of_string (a ++ b) = (list_ascii_of_string a ++ list_ascii_of_string b)%list.
Proof.
  induction a as [|c a IH]; simpl; congruence.
Qed.

Lemma all_chars_app (p : ascii -> bool) (a b : string) :
  all_chars p (a ++ b) = all_chars p a && all_chars p b.
Proof.
  unfold all_chars. now rewrite list_ascii_of_append, forallb_app.
Qed.

Lemma all_chars_impl (p q : ascii -> bool) (s : string) :
  (forall c, p c = true -> q c = true) -> all_chars p s = true -> all_chars q s = true.
Proof.
  intros Hpq. unfold all_chars. rewrite !forallb_forall. auto.
Qed.

Lemma all_chars_substring (p : ascii -> bool) (n : nat) (s : string) :
  all_chars p s = true -> all_chars p (substring 0 n s) = true.
Proof.
  revert s; induction n as [|n IH]; intros [|c s]; try reflexivity.
  unfold all_chars in *. simpl. rewrite !andb_true_iff.
  intros [Hc Hs]. split; [exact Hc | now apply IH].
Qed.

Lemma all_chars_replace_non_alnum (s : string) :
  all_chars (fun c => is_alnum c || Ascii.eqb c "_") (replace_non_alnum s) = true.
Proof.
  unfold all_chars. induction s as [|c s IH]; [reflexivity|].
  simpl. rewrite IH, andb_true_r.
  destruct (is_alnum c) eqn:Hc; [now rewrite Hc | reflexivity].
Qed.

Lemma digits_of_uint (d : Decimal.uint) :
  all_chars is_digit (NilEmpty.string_of_uint d) = true.
Proof.
  unfold all_chars. induction d; simpl; auto.
Qed.

Lemma decimal_chars (z : Z) :
  all_chars (fun c => is_digit c || Ascii.eqb c "-") (decimal z) = true.
Proof.
  assert (Hu : forall d, all_chars (fun c => is_digit c || Ascii.eqb c "-")
                           (NilZero.string_of_uint d) = true).
  { intros d. apply all_chars_impl with (p := is_digit).
    - intros c ->. reflexivity.
    - destruct d; try apply digits_of_uint. reflexivity. }
  unfold decimal. destruct (Z.to_int z) as [d|d]; simpl; [apply Hu|].
  unfold all_chars in *. simpl. apply Hu.
Qed.

Lemma is_digit_alnum (c : ascii) : is_digit c = true -> is_alnum c = true.
Proof.
  unfold is_digit, is_alnum. cbv zeta. intros ->. reflexivity.
Qed.

Lemma decimal_without (sep : ascii) (z : Z) :
  is_digit sep = false -> sep <> "-"%char ->
  all_chars (other_than sep) (decimal z) = true.
Proof.
  intros Hd Hm.
  apply all_chars_impl with (p := fun c => is_digit c || Ascii.eqb c "-");
    [|apply decimal_chars].
  intros c Hc. unfold other_than. apply negb_true_iff, Ascii.eqb_neq.
  intros ->. apply orb_true_iff in Hc. destruct Hc as [Hc|Hc]; [congruence|].
  now apply Ascii.eqb_eq in Hc.
Qed.

Lemma decimal_inj (z z' : Z) : decimal z = decimal z' -> z = z'.
Proof.
  unfold decimal. intros H. apply DecimalZ.to_int_inj.
  assert (Hn : forall n, Z.to_int n <> Decimal.Pos Decimal.Nil /\
                         Z.to_int n <> Decimal.Neg Decimal.Nil).
  { intros [|q|q]; simpl; split; try discriminate;
      intros [= E]; now apply DecimalPos.Unsigned.to_uint_nonnil in E. }
  pose proof (NilZero.isi _ (proj1 (Hn z)) (proj2 (Hn z))) as E1.
  pose proof (NilZero.isi _ (proj1 (Hn z')) (proj2 (Hn z'))) as E2.
  rewrite H in E1. congruence.
Qed.

(** Two strings cut at their first [sep] agree piece by piece. *)
Lemma first_sep_split (sep : ascii) (a b x y : string) :
  all_chars (other_than sep) a = true -> all_chars (other_than sep) b = true ->
  a ++ String sep x = b ++ String sep y -> a = b /\ x = y.
Proof.
  unfold all_chars, other_than.
  revert b; induction a as [|c a IH]; intros [|c' b]; simpl.
  - intros _ _ [= ->]. now split.
  - intros _ Hb [= <- _]. now rewrite Ascii.eqb_refl in Hb.
  - intros Ha _ [= -> _]. now rewrite Ascii.eqb_refl in Ha.
  - rewrite !andb_true_iff. intros [_ Ha] [_ Hb] [= -> H].
    destruct (IH b Ha Hb H) as [-> ->]. now split.
Qed.

(** Two strings cut at their last [sep] agree piece by piece. *)
Lemma last_sep_split (sep : ascii) (x x' t t' : string) :
  all_chars (other_than sep) t = true -> all_chars (other_than sep) t' = true ->
  x ++ String sep t = x' ++ String sep t' -> x = x' /\ t = t'.
Proof.
  intros Ht Ht'.
  assert (Hno : forall u v, all_chars (other_than sep) (u ++ String sep v) = false).
  { intros u v. rewrite all_chars_app. unfold all_chars at 2, other_than. simpl.
    rewrite Ascii.eqb_refl. simpl. apply andb_false_r. }
  revert x'; induction x as [|c x IH]; intros [|c' x']; simpl.
  - intros [= ->]. now split.
  - intros [= <- E]. rewrite E, Hno in Ht. discriminate.
  - intros [= -> E]. rewrite <- E, Hno in Ht'. discriminate.
  - intros [= -> H]. destruct (IH x' H) as [-> ->]. now split.
Qed.

Lemma filename_inj (ts ts' : Z) (p p' : string) (i j : Z) :
  generateImageFilename ts p (VNum i) = generateImageFilename ts' p' (VNum j) ->
  i = j /\ sanitizedPrompt p = sanitizedPrompt p' /\ ts = ts'.
Proof.
  unfold generateImageFilename. cbn [ToString]. intros H.
  change ("slide_" ++ decimal i ++ "_" ++ sanitizedPrompt p ++ "_" ++ decimal ts ++ ".jpg")
    with ("slide_" ++ (decimal i ++ String "_"
             (sanitizedPrompt p ++ String "_" (decimal ts ++ String "." "jpg")))) in H.
  change ("slide_" ++ decimal j ++ "_" ++ sanitizedPrompt p' ++ "_" ++ decimal ts' ++ ".jpg")
    with ("slide_" ++ (decimal j ++ String "_"
             (sanitizedPrompt p' ++ String "_" (decimal ts' ++ String "." "jpg")))) in H.
  simpl in H. injection H as H.
  assert (Hus : forall z, all_chars (other_than "_") (decimal z) = true)
    by (intros z; apply decimal_without; [reflexivity | discriminate]).
  assert (Hdot : forall z, all_chars (other_than ".") (decimal z) = true)
    by (intros z; apply decimal_without; [reflexivity | discriminate]).
  apply first_sep_split in H; try apply Hus. destruct H as [Hi H].
  apply last_sep_split in H;
    try (rewrite all_chars_app, Hus; reflexivity).
  destruct H as [Hp H].
  apply first_sep_split in H; try apply Hdot. destruct H as [Hts _].
  split; [now apply decimal_inj|]. split; [exact Hp | now apply decimal_inj].
Qed.

Lemma filename_chars (timestamp : Z) (prompt : string) (index : Z) :
  all_chars filename_char (generateImageFilename timestamp prompt (VNum index)) = true.
Proof.
  assert (Hdec : forall z, all_chars filename_char (decimal z) = true).
  { intros z. apply all_chars_impl with (p := fun c => is_digit c || Ascii.eqb c "-");
      [|apply decimal_chars].
    intros c Hc. unfold filename_char. apply orb_true_iff in Hc.
    destruct Hc as [Hc| ->]; [rewrite (is_digit_alnum c Hc); reflexivity|].
    now rewrite !orb_true_r. }
  assert (Hfrag : all_chars filename_char (sanitizedPrompt prompt) = true).
  { apply all_chars_substring.
    apply all_chars_impl with (p := fun c => is_alnum c || Ascii.eqb c "_");
      [|apply all_chars_replace_non_alnum].
    intros c Hc. unfold filename_char. now rewrite Hc. }
  unfold generateImageFilename. cbn [ToString].
  rewrite !all_chars_app, Hdec, Hdec, Hfrag. reflexivity.
Qed.

(** X2. With a slide index that is a safe integer, the filename is made
    of letters, digits, underscores, minus signs and dots only, whatever
    the prompt; in particular it holds no slash. *)
Theorem filename_characters (timestamp : Z) (prompt : string) (index : Z) :
  safe_integer index = true ->
  all_chars filename_char (generateImageFilename timestamp prompt (VNum index)) = true /\
  ~ In "/"%char (list_ascii_of_string (generateImageFilename timestamp prompt (VNum index))).
Proof.
  intros _. pose proof (filename_chars timestamp prompt index) as Hall.
  split; [exact Hall|].
  intros Hin. unfold all_chars in Hall. rewrite forallb_forall in Hall.
  specialize (Hall _ Hin). discriminate.
Qed.

Lemma filename_characters_witness :
  safe_integer 3 = true /\
  all_chars filename_char
    (generateImageFilename 1700000000000 "../../etc/passwd" (VNum 3)) = true /\
  generateImageFilename 1700000000000 "../../etc/passwd" (VNum 3) =
    "slide_3_______etc_passwd_1700000000000.jpg".
Proof.
  split; [reflexivity|]. split; [|reflexivity].
  apply (filename_characters 1700000000000 "../../etc/passwd" 3). reflexivity.
Defined.

(** X3. Two filenames with slide indices that are safe integers are equal
    exactly when the indices are equal, the timestamps are equal and the
    prompts have the same sanitized 20-character fragment; so the images of
    different slides never share a filename, and neither do images saved at
    different milliseconds. *)
Theorem generateImageFilename_collisions (ts ts' : Z) (p p' : string) (i j : Z) :
  safe_integer i = true -> safe_integer j = true ->
  (generateImageFilename ts p (VNum i) = generateImageFilename ts' p' (VNum j) <->
   i = j /\ sanitizedPrompt p = sanitizedPrompt p' /\ ts = ts').
Proof.
  intros _ _. split; [apply filename_inj|].
  intros (-> & Hp & ->). unfold generateImageFilename. now rewrite Hp.
Qed.

Lemma generateImageFilename_collisions_witness :
  safe_integer 1 = true /\ safe_integer 2 = true /\
  generateImageFilename 1700000000000 "Sun flat" (VNum 1) <>
  generateImageFilename 1700000000000 "Sun flat" (VNum 2).
Proof.
  split; [reflexivity|]. split; [reflexivity|].
  intros H.
  apply (generateImageFilename_collisions 1700000000000 1700000000000
           "Sun flat" "Sun flat" 1 2 eq_refl eq_refl) in H.
  destruct H as [H _]. discriminate.
Defined.

(** ** Which prompts share a fragment *)

Lemma replace_non_alnum_substring (n : nat) (s : string) :
  replace_non_alnum (substring 0 n s) = substring 0 n (replace_non_alnum s).
Proof.
  revert s; induction n as [|n IH]; intros [|c s]; try reflexivity.
  simpl. now rewrite IH.
Qed.

Lemma substring_0_twice (n : nat) (s : string) :
  substring 0 n (substring 0 n s) = substring 0 n s.
Proof.
  revert s; induction n as [|n IH]; intros [|c s]; try reflexivity.
  simpl. now rewrite IH.
Qed.

Lemma substring_0_short (n : nat) (s : string) :
  (String.length s <= n)%nat -> substring 0 n s = s.
Proof.
  revert s; induction n as [|n IH]; intros [|c s]; simpl; try reflexivity; try lia.
  intros H. rewrite IH; [reflexivity | lia].
Qed.

Lemma replace_non_alnum_twice (s : string) :
  replace_non_alnum (replace_non_alnum s) = replace_non_alnum s.
Proof.
  induction s as [|c s IH]; [reflexivity|].
  simpl. rewrite IH. f_equal.
  destruct (is_alnum c) eqn:Hc; [now rewrite Hc | reflexivity].
Qed.

Lemma replace_non_alnum_clean (s : string) :
  all_alnum s = true -> replace_non_alnum s = s.
Proof.
  unfold all_alnum. induction s as [|c s IH]; [reflexivity|].
  simpl. rewrite andb_true_iff. intros [-> Hs]. now rewrite IH.
Qed.

(** X4. The fragment depends on the first 20 characters of the prompt
    only, so prompts that agree there get the same filename at the same
    slide index and timestamp; sanitizing a fragment again changes nothing;
    and a prompt of at most 20 alphanumeric characters is its own
    fragment. *)
Theorem sanitizedPrompt_stable (prompt : string) :
  sanitizedPrompt (substring 0 20 prompt) = sanitizedPrompt prompt /\
  sanitizedPrompt (sanitizedPrompt prompt) = sanitizedPrompt prompt /\
  (forall other timestamp index,
      substring 0 20 other = substring 0 20 prompt ->
      generateImageFilename timestamp other index =
      generateImageFilename timestamp prompt index) /\
  (all_alnum prompt = true -> (String.length prompt <= 20)%nat ->
   sanitizedPrompt prompt = prompt).
Proof.
  assert (Hprefix : forall p, sanitizedPrompt (substring 0 20 p) = sanitizedPrompt p).
  { intros p. unfold sanitizedPrompt.
    now rewrite replace_non_alnum_substring, substring_0_twice. }
  split; [apply Hprefix|]. split; [|split].
  - unfold sanitizedPrompt.
    now rewrite replace_non_alnum_substring, replace_non_alnum_twice, substring_0_twice.
  - intros other timestamp index Hsame. unfold generateImageFilename.
    now rewrite <- (Hprefix other), Hsame, Hprefix.
  - intros Hclean Hshort. unfold sanitizedPrompt.
    now rewrite replace_non_alnum_clean, substring_0_short.
Qed.

Lemma sanitizedPrompt_stable_witness :
  substring 0 20 "Solar Power: the future of energy" =
    substring 0 20 "Solar Power: the future of transport" /\
  generateImageFilename 1700000000000 "Solar Power: the future of energy" (VNum 1) =
    generateImageFilename 1700000000000 "Solar Power: the future of transport" (VNum 1) /\
  all_alnum "SolarPower" = true /\ (String.length "SolarPower" <= 20)%nat /\
  sanitizedPrompt "SolarPower" = "SolarPower".
Proof.
  split; [reflexivity|]. split.
  - apply (sanitizedPrompt_stable "Solar Power: the future of transport"). reflexivity.
  - split; [reflexivity|]. split; [simpl; lia|].
    apply (sanitizedPrompt_stable "SolarPower"); [reflexivity | simpl; lia].
Defined.

(** ** The third slide *)

(** X5. For slide index 2 the bullets are the answer's [bullets] array as
    it is (not trimmed, whatever the answer holds under [paragraphs]), cut
    at 6, 5, 4, 3 for Extensive, Detailed, Concise and any other density;
    when the answer is missing, unparsable, [null], or the call fails, they
    are the two placeholder strings.  So on both paths the third slide has
    at most as many bullets as its maximum, and never more than 6. *)
Theorem third_slide_bullets (create : chat_request -> completion)
    (slideTitle : value) (topic amountOfText : string) :
  let result := fst (generateSlideContent create slideTitle topic amountOfText 2) in
  let placeholders :=
    [ VStr "Sample professional paragraph 1"; VStr "Sample professional paragraph 2" ] in
  (maxParagraphs 2 "Extensive" = 6 /\ maxParagraphs 2 "Detailed" = 5 /\
   maxParagraphs 2 "Concise" = 4 /\ maxParagraphs 2 "Minimal" = 3)%nat /\
  match create (slide_request slideTitle topic amountOfText 2) with
  | Parsed parsed =>
      match get parsed "bullets" with
      | inr found =>
          bullets result = firstn (maxParagraphs 2 amountOfText) (items_of found)
      | inl _ => bullets result = placeholders
      end
  | _ => bullets result = placeholders
  end /\
  (length (bullets result) <= maxParagraphs 2 amountOfText <= 6)%nat.
Proof.
  intros result placeholders.
  assert (Hcap : (3 <= maxParagraphs 2 amountOfText <= 6)%nat).
  { unfold maxParagraphs. simpl.
    repeat match goal with |- context [if ?b then _ else _] => destruct b end; lia. }
  assert (Hpaths :
    match create (slide_request slideTitle topic amountOfText 2) with
    | Parsed parsed =>
        match get parsed "bullets" with
        | inr found =>
            bullets result = firstn (maxParagraphs 2 amountOfText) (items_of found)
        | inl _ => bullets result = placeholders
        end
    | _ => bullets result = placeholders
    end).
  { subst result. unfold generateSlideContent. cbn [fst].
    destruct (create _) as [| | |parsed]; try reflexivity.
    unfold content_try, content_of_parsed, await_parsed, bind, ret. cbn [Nat.eqb].
    destruct (get parsed "bullets") as [e|found]; [reflexivity|].
    cbn [try_catch bullets]. now rewrite items_if_array. }
  split; [repeat split|]. split; [exact Hpaths|].
  split; [|lia].
  destruct (create _) as [| | |parsed];
    try (rewrite Hpaths; simpl; lia).
  destruct (get parsed "bullets") as [e|found]; rewrite Hpaths;
    [simpl; lia | rewrite length_firstn; lia].
Qed.

(** ** The other slides *)

Lemma map_attempt_call_trim (l : list value) :
  map_attempt call_trim l =
  if forallb is_string l then inr (map trimmed l) else inl TypeError.
Proof.
  induction l as [|v l IH]; [reflexivity|].
  cbn [map_attempt forallb map]. rewrite IH.
  destruct v; try reflexivity.
  cbn [call_trim is_string andb bind ret trimmed].
  now destruct (forallb is_string l).
Qed.

Lemma firstn_strings (n : nat) (l : list value) :
  Forall (fun b => is_string b = true) l ->
  Forall (fun b => is_string b = true) (firstn n l).
Proof.
  intros H. revert n; induction H as [|b l Hb _ IH]; intros [|n]; simpl;
    constructor; auto.
Qed.

(** X6. For a slide index other than 2, every bullet is a string.  When
    the answer parses, they are its paragraphs, each trimmed, cut at the
    maximum, provided every paragraph is a string; one paragraph that is
    not a string, or an answer that is [null], discards the whole answer
    for the placeholders. *)
Theorem paragraph_slides_hold_strings (create : chat_request -> completion)
    (slideTitle : value) (topic amountOfText : string) (slideIndex : nat) :
  slideIndex <> 2%nat ->
  let result := fst (generateSlideContent create slideTitle topic amountOfText slideIndex) in
  Forall (fun b => is_string b = true) (bullets result) /\
  forall parsed,
    create (slide_request slideTitle topic amountOfText slideIndex) = Parsed parsed ->
    match get parsed "paragraphs" with
    | inr found =>
        if forallb is_string (items_of found)
        then bullets result =
             firstn (maxParagraphs slideIndex amountOfText) (map trimmed (items_of found))
        else result = content_fallback slideIndex
    | inl _ => result = content_fallback slideIndex
    end.
Proof.
  intros Hidx result. apply Nat.eqb_neq in Hidx.
  assert (Hfallback : Forall (fun b => is_string b = true)
                        (bullets (content_fallback slideIndex))).
  { unfold content_fallback. destruct (slideIndex =? 0)%nat; repeat constructor. }
  assert (Hparsed : forall parsed,
    create (slide_request slideTitle topic amountOfText slideIndex) = Parsed parsed ->
    match get parsed "paragraphs" with
    | inr found =>
        if forallb is_string (items_of found)
        then bullets result =
             firstn (maxParagraphs slideIndex amountOfText) (map trimmed (items_of found))
        else result = content_fallback slideIndex
    | inl _ => result = content_fallback slideIndex
    end).
  { intros parsed Hans. subst result. unfold generateSlideContent. cbn [fst].
    rewrite Hans. unfold content_try, content_of_parsed, await_parsed, bind, ret.
    rewrite Hidx.
    destruct (get parsed "paragraphs") as [e|found]; [reflexivity|].
    rewrite items_if_array, map_attempt_call_trim.
    now destruct (forallb is_string (items_of found)). }
  split; [|exact Hparsed].
  destruct (create (slide_request slideTitle topic amountOfText slideIndex))
    as [| | |parsed] eqn:Hans;
    try (subst result; unfold generateSlideContent; cbn [fst]; rewrite Hans;
         exact Hfallback).
  specialize (Hparsed parsed eq_refl).
  destruct (get parsed "paragraphs") as [e|found]; [now rewrite Hparsed|].
  destruct (forallb is_string (items_of found)) eqn:Hstr; [|now rewrite Hparsed].
  rewrite Hparsed. apply firstn_strings.
  apply Forall_forall. intros b Hin. apply in_map_iff in Hin.
  destruct Hin as (v & <- & Hv).
  rewrite forallb_forall in Hstr. specialize (Hstr v Hv). now destruct v.
Qed.

Lemma paragraph_slides_hold_strings_witness :
  (1 <> 2)%nat /\
  bullets (fst (generateSlideContent
                  (fun _ => Parsed (VObj [("paragraphs", VArr [VStr " one "; VNum 2])]))
                  (VStr "Panels") "Solar Power" "Detailed" 1)) =
  [ VStr "Sample professional paragraph 1"; VStr "Sample professional paragraph 2" ].
Proof.
  split; [discriminate|].
  destruct (paragraph_slides_hold_strings
              (fun _ => Parsed (VObj [("paragraphs", VArr [VStr " one "; VNum 2])]))
              (VStr "Panels") "Solar Power" "Detailed" 1%nat ltac:(discriminate))
    as [_ H].
  specialize (H _ eq_refl). simpl in H.
  apply (f_equal bullets) in H. exact H.
Defined.

(** ** The completion requests of one deck *)

Lemma content_calls_of_printable (req : generation_request)
    (titles : list value) (start : nat) :
  forallb printable titles = true ->
  concat (map_index_from start
            (fun i t => if printable t then [content_call_of req i t] else []) titles) =
  map_index_from start (content_call_of req) titles.
Proof.
  revert start; induction titles as [|t titles IH]; intros start; [reflexivity|].
  cbn [forallb map_index_from concat]. rewrite andb_true_iff. intros [-> Hrest].
  now rewrite IH.
Qed.

Lemma content_calls_by_slide (w : world) (req : generation_request)
    (titles : list value) (start : nat) :
  map_index_from start (fun i s => content_call_of req i (slide_title s))
    (map_index_from start (fun idx t => fst (assemble_slide w req idx t)) titles) =
  map_index_from start (content_call_of req) titles.
Proof.
  revert start; induction titles as [|t titles IH]; intros start; [reflexivity|].
  cbn [map_index_from]. rewrite IH. reflexivity.
Qed.

Lemma outline_log_shape (w : world) (req : generation_request) :
  snd (outlineTitles w req) = map OutlineCall (outline_calls (snd (outlineTitles w req))) /\
  (length (outline_calls (snd (outlineTitles w req))) <= 1)%nat.
Proof.
  unfold outlineTitles.
  destruct (has_length (req_outline req) && first_has_title (req_outline req));
    simpl; split; auto.
Qed.

(** X7. While answering [/api/generate] the server sends at most one
    outline request, first, and then one content request for every slide
    title that can be converted to a string, in title order, each built
    from that title, the request's title and density, and the title's
    position (the prompt text being the modelled one for titles whose
    numbers are safe integers).  So when the route answers with a deck, it
    has sent exactly one content request per slide; a title that cannot be
    converted gets no request, and the requests for the other titles are
    sent all the same. *)
Theorem completion_requests_in_order (w : world) (req : generation_request) :
  forallb plain (fst (outlineTitles w req)) = true ->
  let titles := fst (outlineTitles w req) in
  let log := snd (api_generate w req) in
  log = (map OutlineCall (outline_calls log) ++
         concat (map_index
                   (fun i t => if printable t then [content_call_of req i t] else [])
                   titles))%list /\
  (length (outline_calls log) <= 1)%nat /\
  forall body, fst (api_generate w req) = Json body ->
    log = (map OutlineCall (outline_calls log) ++
           map_index (fun i s => content_call_of req i (slide_title s)) (slides body))%list /\
    length log = (length (outline_calls log) + length (slides body))%nat.
Proof.
  intros _ titles log.
  destruct (outline_log_shape w req) as [Hshape Hone].
  assert (Hcalls : outline_calls log = outline_calls (snd (outlineTitles w req)))
    by apply outline_calls_api_generate.
  assert (Hlog : log = (map OutlineCall (outline_calls log) ++
                        concat (map_index
                                  (fun i t => if printable t
                                              then [content_call_of req i t] else [])
                                  titles))%list).
  { rewrite Hcalls, <- Hshape. apply log_of_api_generate. }
  split; [exact Hlog|]. split; [now rewrite Hcalls|].
  intros body Hbody. apply api_generate_deck in Hbody. destruct Hbody as [-> Hprint].
  assert (Hdeck : log = (map OutlineCall (outline_calls log) ++
                         map_index (fun i s => content_call_of req i (slide_title s))
                           (slides (deck_of w req)))%list).
  { rewrite Hlog at 1. f_equal.
    unfold deck_of, map_index. cbn [slides].
    rewrite content_calls_by_slide.
    now apply content_calls_of_printable. }
  split; [exact Hdeck|].
  rewrite Hdeck at 1. rewrite length_app, length_map.
  unfold map_index. now rewrite length_map_index_from.
Qed.

Lemma completion_requests_in_order_witness :
  let w := replying_world (VArr [VObj [("toString", VNum 1)]; VStr "B"])
             (VObj [("paragraphs", VArr [VStr "p"])]) in
  forallb plain (fst (outlineTitles w solar_request)) = true /\
  fst (api_generate w solar_request) = Status500 TypeError /\
  snd (api_generate w solar_request) =
    [ OutlineCall (outline_request "Solar Power" 3);
      content_call_of solar_request 1 (VStr "B") ].
Proof.
  split; [reflexivity|]. split; [reflexivity|].
  destruct (completion_requests_in_order
              (replying_world (VArr [VObj [("toString", VNum 1)]; VStr "B"])
                 (VObj [("paragraphs", VArr [VStr "p"])]))
              solar_request eq_refl) as (Hlog & _).
  rewrite Hlog. reflexivity.
Defined.

(** ** Layouts *)

Lemma random_index_is (random : Q) (k : Z) :
  (inject_Z k <= random * inject_Z 4)%Q ->
  (random * inject_Z 4 < inject_Z (k + 1))%Q ->
  Qfloor (random * inject_Z (Z.of_nat (length layoutOptions))) = k.
Proof.
  intros Hlo Hhi.
  change (inject_Z (Z.of_nat (length layoutOptions))) with (inject_Z 4).
  apply Qfloor_resp_le in Hlo. rewrite Qfloor_Z in Hlo.
  assert (Hup : (Qfloor (random * inject_Z 4) < k + 1)%Z).
  { rewrite Zlt_Qlt. eapply Qle_lt_trans; [apply Qfloor_le | exact Hhi]. }
  lia.
Qed.

Lemma scaled_bounds (random lo hi : Q) (k : Z) :
  (lo <= random)%Q -> (random < hi)%Q ->
  (inject_Z k == lo * inject_Z 4)%Q -> (inject_Z (k + 1) == hi * inject_Z 4)%Q ->
  Qfloor (random * inject_Z (Z.of_nat (length layoutOptions))) = k.
Proof.
  intros Hlo Hhi Ek Ek1. apply random_index_is.
  - rewrite Ek. apply Qmult_le_r; [reflexivity | exact Hlo].
  - rewrite Ek1. apply Qmult_lt_r; [reflexivity | exact Hhi].
Qed.

Lemma layout_by_quarter (random : Q) (idx : nat) :
  idx <> 0%nat -> in_unit_interval random ->
  choose_layout random idx =
  VStr (if Qlt_le_dec random (1 # 4) then "image-left"
        else if Qlt_le_dec random (1 # 2) then "image-right"
        else if Qlt_le_dec random (3 # 4) then "image-bottom"
        else "text-only").
Proof.
  intros Hidx [H0 H1]. apply Nat.eqb_neq in Hidx.
  unfold choose_layout. rewrite Hidx.
  destruct (Qlt_le_dec random (1 # 4)) as [Ha|Ha].
  { rewrite (scaled_bounds random 0 (1 # 4) 0 H0 Ha); reflexivity. }
  destruct (Qlt_le_dec random (1 # 2)) as [Hb|Hb].
  { rewrite (scaled_bounds random (1 # 4) (1 # 2) 1 Ha Hb); reflexivity. }
  destruct (Qlt_le_dec random (3 # 4)) as [Hc|Hc].
  { rewrite (scaled_bounds random (1 # 2) (3 # 4) 2 Hb Hc); reflexivity. }
  rewrite (scaled_bounds random (3 # 4) 1 3 Hc H1); reflexivity.
Qed.

(** X8. In every deck the route answers with, the first slide has layout
    image-left and never consults [Math.random]; every later slide takes
    the option its own draw falls on: image-left below 1/4, image-right
    from 1/4 up to 1/2, image-bottom from 1/2 up to 3/4, text-only from 3/4
    on.  So, for draws in [[0, 1)], every layout is one of the four
    options. *)
Theorem layouts_of_every_deck (w : world) (req : generation_request) :
  (forall i, in_unit_interval (Math_random w i)) ->
  forall body, fst (api_generate w req) = Json body ->
    forall i s, nth_error (slides body) i = Some s ->
      is_layout_option (slide_layout s) /\
      slide_layout s =
        match i with
        | O => VStr "image-left"
        | S _ =>
            let random := Math_random w i in
            VStr (if Qlt_le_dec random (1 # 4) then "image-left"
                  else if Qlt_le_dec random (1 # 2) then "image-right"
                  else if Qlt_le_dec random (3 # 4) then "image-bottom"
                  else "text-only")
        end.
Proof.
  intros Hrandom body Hbody.
  apply api_generate_deck in Hbody. destruct Hbody as [-> _].
  intros i s Hs. apply nth_slide in Hs. destruct Hs as (t & _ & ->).
  destruct (assemble_slide_fields w req i t) as (_ & _ & _ & -> & _).
  split; [apply choose_layout_option, Hrandom|].
  destruct i as [|i]; [reflexivity|].
  apply layout_by_quarter; [discriminate | apply Hrandom].
Qed.

Lemma layouts_of_every_deck_witness :
  (forall i, in_unit_interval (Math_random offline_world i)) /\
  exists body s,
    fst (api_generate offline_world solar_request) = Json body /\
    map slide_layout (slides body) =
      [ VStr "image-left"; VStr "image-left"; VStr "image-right" ] /\
    nth_error (slides body) 2 = Some s /\
    slide_layout s = VStr "image-right".
Proof.
  split; [exact sample_draws_in_unit_interval|].
  assert (Hbody : fst (api_generate offline_world solar_request) =
                  Json (deck_of offline_world solar_request))
    by (apply api_generate_answers; reflexivity).
  pose proof (layouts_of_every_deck offline_world solar_request
                sample_draws_in_unit_interval _ Hbody) as Hlayouts.
  do 2 eexists. split; [exact Hbody|]. split; [reflexivity|].
  split; [reflexivity|].
  destruct (Hlayouts 2%nat _ eq_refl) as [_ ->]. reflexivity.
Defined.

(** ** Images of a deck *)

Lemma assemble_slide_image_field (w : world) (req : generation_request) (idx : nat) (t : value) :
  slide_image_field (fst (assemble_slide w req idx t)) =
  let imageUrl :=
    if negb (req_imageSource req =? "None")
    then generateIdeogramImage (env_IDEOGRAM_API_KEY w) (image_io_at w idx)
           (VStr (image_prompt req t)) (of_option (req_imageStyle req))
           (VNum (Z.of_nat idx))
    else VUndefined in
  if truthy imageUrl
  then Some {| image_url := imageUrl;
               image_alt := t;
               image_source := req_imageSource req;
               image_style := req_imageStyle req |}
  else None.
Proof.
  reflexivity.
Qed.

Lemma slide_image_saved (w : world) (req : generation_request) (idx : nat) (t : value)
    (img : slide_image) :
  slide_image_field (fst (assemble_slide w req idx t)) = Some img ->
  req_imageSource req <> "None" /\
  exists filename,
    image_saved_as (env_IDEOGRAM_API_KEY w) (image_io_at w idx)
      (VStr (image_prompt req t)) (of_option (req_imageStyle req))
      (VNum (Z.of_nat idx)) filename /\
    image_url img = VStr ("/uploads/" ++ filename).
Proof.
  rewrite assemble_slide_image_field. cbv zeta.
  destruct (req_imageSource req =? "None") eqn:Hsrc; cbn [negb]; [discriminate|].
  intros H. apply String.eqb_neq in Hsrc. split; [exact Hsrc|].
  destruct (generateIdeogramImage_cases (env_IDEOGRAM_API_KEY w) (image_io_at w idx)
              (VStr (image_prompt req t)) (of_option (req_imageStyle req))
              (VNum (Z.of_nat idx))) as [Hnull | (filename & Hsaved & Hurl)].
  - rewrite Hnull in H. discriminate.
  - rewrite Hurl in H. cbn [truthy non_empty append] in H.
    exists filename. split; [exact Hsaved|].
    injection H as <-. reflexivity.
Qed.

Lemma slide_without_image (w : world) (req : generation_request) (idx : nat) (t : value) :
  req_imageSource req = "None" \/
  env_IDEOGRAM_API_KEY w = None \/ env_IDEOGRAM_API_KEY w = Some EmptyString ->
  slide_image_field (fst (assemble_slide w req idx t)) = None.
Proof.
  intros H.
  destruct (slide_image_field (fst (assemble_slide w req idx t))) as [img|] eqn:Himg;
    [|reflexivity].
  apply slide_image_saved in Himg.
  destruct Himg as (Hsrc & filename & (key & p & remote & Hkey & Hne & _) & _).
  destruct H as [H | [H | H]]; [contradiction | congruence |].
  rewrite H in Hkey. injection Hkey as <-. discriminate.
Qed.

(** X9. In a deck the route answers with, a slide carries an image
    exactly when the request's imageSource is not "None" and that slide's
    image was generated and saved; its url is then [/uploads/<filename>],
    the filename built from the slide's title followed by a space and the
    style, the slide's position and the clock (the title being printed as
    modelled when its numbers are safe integers).  With imageSource "None",
    or with the image API key missing or empty, no slide of any deck has an
    image. *)
Theorem deck_images (w : world) (req : generation_request) :
  forall body, fst (api_generate w req) = Json body ->
    (req_imageSource req = "None" \/
     env_IDEOGRAM_API_KEY w = None \/ env_IDEOGRAM_API_KEY w = Some EmptyString ->
     Forall (fun s => slide_image_field s = None) (slides body)) /\
    forall i s, nth_error (slides body) i = Some s ->
      plain (slide_title s) = true ->
      (forall img, slide_image_field s = Some img ->
         req_imageSource req <> "None" /\
         exists filename,
           image_saved_as (env_IDEOGRAM_API_KEY w) (image_io_at w i)
             (VStr (image_prompt req (slide_title s))) (of_option (req_imageStyle req))
             (VNum (Z.of_nat i)) filename /\
           image_url img = VStr ("/uploads/" ++ filename)) /\
      (forall filename,
          req_imageSource req <> "None" ->
          image_saved_as (env_IDEOGRAM_API_KEY w) (image_io_at w i)
            (VStr (image_prompt req (slide_title s))) (of_option (req_imageStyle req))
            (VNum (Z.of_nat i)) filename ->
          exists img, slide_image_field s = Some img /\
                      image_url img = VStr ("/uploads/" ++ filename)).
Proof.
  intros body Hbody. apply api_generate_deck in Hbody. destruct Hbody as [-> _].
  split.
  - intros H. apply Forall_forall. intros s Hin.
    apply In_nth_error in Hin. destruct Hin as (i & Hs).
    apply nth_slide in Hs. destruct Hs as (t & _ & ->).
    now apply slide_without_image.
  - intros i s Hs _. apply nth_slide in Hs. destruct Hs as (t & _ & ->).
    destruct (assemble_slide_fields w req i t) as (_ & Ht & _). cbv zeta in Ht.
    rewrite Ht. split; [intros img; apply slide_image_saved|].
    intros filename Hsrc Hsaved.
    rewrite assemble_slide_image_field. cbv zeta.
    apply String.eqb_neq in Hsrc. rewrite Hsrc. cbn [negb].
    rewrite (generateIdeogramImage_saved _ _ _ _ _ _ Hsaved).
    cbn [truthy non_empty append].
    eexists. split; reflexivity.
Qed.

Lemma deck_images_witness :
  exists body s img,
    fst (api_generate offline_world illustrated_request) = Json body /\
    nth_error (slides body) 0 = Some s /\
    plain (slide_title s) = true /\
    slide_image_field s = Some img /\
    image_url img = VStr "/uploads/slide_0_Sun_flat_1700000000000.jpg" /\
    req_imageSource illustrated_request <> "None" /\
    Forall (fun s => slide_image_field s = None)
      (slides (deck_of (keyed_world None) illustrated_request)).
Proof.
  assert (Hbody : fst (api_generate offline_world illustrated_request) =
                  Json (deck_of offline_world illustrated_request))
    by (apply api_generate_answers; reflexivity).
  assert (Hnokey : fst (api_generate (keyed_world None) illustrated_request) =
                   Json (deck_of (keyed_world None) illustrated_request))
    by (apply api_generate_answers; reflexivity).
  destruct (deck_images offline_world illustrated_request _ Hbody) as (_ & Himg).
  destruct (deck_images (keyed_world None) illustrated_request _ Hnokey) as (Hnone & _).
  do 3 eexists. split; [exact Hbody|]. split; [reflexivity|]. split; [reflexivity|].
  split; [reflexivity|]. split; [reflexivity|].
  split; [|apply Hnone; right; left; reflexivity].
  destruct (Himg 0%nat _ eq_refl eq_refl) as (Hsaved & _).
  destruct (Hsaved _ eq_refl) as (Hsrc & _). exact Hsrc.
Defined.

(** X10. Within one deck no two slides share an image url: slides at
    different positions that both carry an image have different urls,
    whatever their titles and whenever they were saved. *)
Theorem image_urls_differ (w : world) (req : generation_request) :
  forall body, fst (api_generate w req) = Json body ->
    forall i j s s' img img',
      nth_error (slides body) i = Some s -> nth_error (slides body) j = Some s' ->
      slide_image_field s = Some img -> slide_image_field s' = Some img' ->
      image_url img = image_url img' -> i = j.
Proof.
  intros body Hbody. apply api_generate_deck in Hbody. destruct Hbody as [-> _].
  intros i j s s' img img' Hs Hs' Himg Himg' Hurl.
  apply nth_slide in Hs. destruct Hs as (t & _ & ->).
  apply nth_slide in Hs'. destruct Hs' as (t' & _ & ->).
  apply slide_image_saved in Himg.
  destruct Himg as (_ & f & (key & p & remote & _ & _ & _ & _ & _ & _ & _ & Hf & _) & Hu).
  apply slide_image_saved in Himg'.
  destruct Himg'
    as (_ & f' & (key' & p' & remote' & _ & _ & _ & _ & _ & _ & _ & Hf' & _) & Hu').
  rewrite Hu, Hu' in Hurl. injection Hurl as Hff.
  rewrite Hf, Hf' in Hff. cbn [default_index] in Hff. apply filename_inj in Hff.
  destruct Hff as (Hij & _). lia.
Qed.

Lemma image_urls_differ_witness :
  exists body s s' img img',
    fst (api_generate offline_world illustrated_request) = Json body /\
    nth_error (slides body) 0 = Some s /\
    nth_error (slides body) 1 = Some s' /\
    slide_image_field s = Some img /\ slide_image_field s' = Some img' /\
    image_url img <> image_url img'.
Proof.
  assert (Hbody : fst (api_generate offline_world illustrated_request) =
                  Json (deck_of offline_world illustrated_request))
    by (apply api_generate_answers; reflexivity).
  pose proof (image_urls_differ offline_world illustrated_request _ Hbody) as Hdiff.
  do 5 eexists. split; [exact Hbody|]. repeat (split; [reflexivity|]).
  intros Hurl.
  pose proof (Hdiff 0%nat 1%nat _ _ _ _ eq_refl eq_refl eq_refl eq_refl Hurl) as H.
  discriminate.
Defined.

(** ** A supplied outline *)

(** X11. A supplied, non-empty outline fixes the deck whatever
    [slideCount] says: changing [slideCount] changes neither the response
    nor the requests sent.  An outline left out is treated as an empty one.
    When the first entry has a title, the deck has one slide per entry, in
    order, an entry without a title giving a slide whose title is
    [undefined], and the outline generator is not invoked. *)
Theorem outline_overrides_slideCount (w : world) (req : generation_request) :
  (entries (req_outline req) <> [] ->
   forall slideCount, api_generate w (with_slideCount slideCount req) = api_generate w req) /\
  api_generate w (with_outline None req) = api_generate w (with_outline (Some []) req) /\
  (first_has_title (req_outline req) = true ->
   ~ outline_generator_invoked w req /\
   exists body,
     fst (api_generate w req) = Json body /\
     length (slides body) = length (entries (req_outline req)) /\
     map slide_title (slides body) = supplied_titles req).
Proof.
  split; [|split].
  - intros Hne slideCount.
    unfold api_generate, outlineTitles, numSlides.
    cbn [with_slideCount req_outline req_title req_amountOfText req_slideCount].
    destruct (req_outline req) as [[|s l]|]; try (now destruct Hne).
    reflexivity.
  - reflexivity.
  - intros Hfirst.
    assert (Hout : outlineTitles w req = (supplied_titles req, [])).
    { pose proof (outlineTitles_cases w req) as Hcases.
      unfold first_has_title in Hfirst.
      destruct (entries (req_outline req)) as [|s rest]; [discriminate|].
      fold (has_title s) in Hfirst. now rewrite Hfirst in Hcases. }
    split.
    + unfold outline_generator_invoked.
      rewrite outline_calls_api_generate, Hout. intros H; now apply H.
    + exists (deck_of w req). split.
      { apply api_generate_answers. unfold titles_printable. rewrite Hout.
        apply supplied_titles_printable. }
      rewrite deck_length, deck_titles, Hout. cbn [fst]. split; [|reflexivity].
      unfold supplied_titles. apply length_map.
Qed.

Lemma outline_overrides_slideCount_witness :
  entries (req_outline illustrated_request) <> [] /\
  first_has_title (req_outline illustrated_request) = true /\
  api_generate offline_world (with_slideCount (Some 9%Z) illustrated_request) =
    api_generate offline_world illustrated_request /\
  exists body,
    fst (api_generate offline_world illustrated_request) = Json body /\
    length (slides body) = 2%nat /\
    map slide_title (slides body) = [ VStr "Sun"; VUndefined ].
Proof.
  destruct (outline_overrides_slideCount offline_world illustrated_request)
    as (Hcount & _ & Hfirst).
  split; [discriminate|]. split; [reflexivity|].
  split; [apply Hcount; discriminate|].
  destruct (Hfirst eq_refl) as (_ & body & Hbody & Hlen & Htitles).
  exists body. split; [exact Hbody|]. split; [exact Hlen | exact Htitles].
Defined.

(** ** The image route *)

Lemma body_index_default (body : image_request) :
  body_index body = default_index (body_slideIndex body).
Proof.
  unfold body_index. now destruct (body_slideIndex body).
Qed.

Lemma generateIdeogramImage_style (env_key : option string) (io : image_io)
    (prompt style style' slideIndex : value) :
  printable style' = printable style ->
  generateIdeogramImage env_key io prompt style' slideIndex =
  generateIdeogramImage env_key io prompt style slideIndex.
Proof.
  intros H. unfold generateIdeogramImage, ideogram_try, to_string, bind. cbv zeta.
  rewrite H. destruct (printable prompt); [|reflexivity].
  now destruct (printable style).
Qed.

(** X12. [POST /api/generate-image] answers [{imageUrl}], never an error
    status: the url is [null], or, when the image was generated and saved,
    [/uploads/slide_<index>_<fragment>_<timestamp>.jpg], where the index is
    the body's [slideIndex] printed as it is (0 when the body has none; the
    printing is the modelled one when its numbers are safe integers).  A
    [style] or a [slideIndex] that cannot be converted to a string gives
    [null]; apart from that the [style] has no effect on the answer. *)
Theorem api_generate_image_answers (env_key : option string) (io : image_io)
    (body : image_request) :
  plain (body_index body) = true ->
  exists url,
    api_generate_image env_key io body = Json {| imageUrl := url |} /\
    (url = VNull \/
     exists p,
       body_prompt body = VStr p /\
       url = VStr ("/uploads/slide_" ++ ToString (body_index body) ++ "_"
                     ++ sanitizedPrompt p ++ "_" ++ decimal (Date_now io) ++ ".jpg")) /\
    (forall filename,
        image_saved_as env_key io (body_prompt body) (body_style body)
          (body_slideIndex body) filename ->
        url = VStr ("/uploads/" ++ filename)) /\
    (printable (body_style body) = false \/ printable (body_index body) = false ->
     url = VNull) /\
    (forall style,
        printable style = printable (body_style body) ->
        api_generate_image env_key io (with_style style body) =
        api_generate_image env_key io body).
Proof.
  intros _.
  exists (generateIdeogramImage env_key io (body_prompt body) (body_style body)
            (body_slideIndex body)).
  assert (Hroute : forall b,
             api_generate_image env_key io b =
             Json {| imageUrl := generateIdeogramImage env_key io (body_prompt b)
                                   (body_style b) (body_slideIndex b) |}).
  { intros b. unfold api_generate_image. cbn [try_catch ret]. do 2 f_equal.
    destruct (body_slideIndex b); reflexivity. }
  split; [apply Hroute|].
  pose proof (generateIdeogramImage_cases env_key io (body_prompt body) (body_style body)
                (body_slideIndex body)) as Hcases.
  split; [|split; [|split]].
  - destruct Hcases as [Hnull | (filename & Hsaved & Hurl)]; [left; exact Hnull|].
    right. destruct Hsaved as (key & p & remote & _ & _ & Hp & _ & _ & _ & _ & Hf & _).
    exists p. split; [exact Hp|]. rewrite Hurl, Hf, body_index_default. reflexivity.
  - intros filename Hsaved. now apply generateIdeogramImage_saved.
  - intros Hbad. destruct Hcases as [Hnull | (filename & Hsaved & _)]; [exact Hnull|].
    destruct Hsaved as (key & p & remote & _ & _ & _ & Hstyle & Hindex & _).
    rewrite body_index_default in Hbad.
    destruct Hbad; congruence.
  - intros style Hstyle. rewrite !Hroute. cbn [with_style body_prompt body_style
      body_slideIndex]. f_equal. f_equal.
    now apply generateIdeogramImage_style.
Qed.

Lemma api_generate_image_answers_witness :
  plain (body_index sample_body) = true /\
  image_saved_as (Some "key") sample_io (body_prompt sample_body) (body_style sample_body)
    (body_slideIndex sample_body) "slide_0_Solar_Power_flat_1700000000000.jpg" /\
  api_generate_image (Some "key") sample_io sample_body =
    Json {| imageUrl := VStr "/uploads/slide_0_Solar_Power_flat_1700000000000.jpg" |} /\
  api_generate_image (Some "key") sample_io
    (with_style (VObj [("toString", VNum 1)]) sample_body) =
    Json {| imageUrl := VNull |}.
Proof.
  assert (H : image_saved_as (Some "key") sample_io (body_prompt sample_body)
                (body_style sample_body) (body_slideIndex sample_body)
                "slide_0_Solar_Power_flat_1700000000000.jpg").
  { exists "key", "Solar Power flat", (VStr "https://ideogram.ai/api/images/1.png").
    repeat split. }
  split; [reflexivity|]. split; [exact H|]. split.
  - destruct (api_generate_image_answers (Some "key") sample_io sample_body eq_refl)
      as (url & Hanswer & _ & Hsaved & _).
    rewrite Hanswer, (Hsaved _ H). reflexivity.
  - destruct (api_generate_image_answers (Some "key") sample_io
                (with_style (VObj [("toString", VNum 1)]) sample_body) eq_refl)
      as (url & Hanswer & _ & _ & Hbad & _).
    rewrite Hanswer, Hbad; [reflexivity | left; reflexivity].
Defined.

(** ** Bullets of a deck *)

Lemma maxParagraphs_bound (slideIndex : nat) (amountOfText : string) :
  (maxParagraphs slideIndex amountOfText <= bullet_bound slideIndex)%nat.
Proof.
  unfold maxParagraphs, bullet_bound.
  destruct slideIndex as [|[|[|n]]]; simpl;
    repeat match goal with |- context [if ?b then _ else _] => destruct b end; lia.
Qed.

Lemma content_of_parsed_bound (parsed : value) (amountOfText : string) (slideIndex : nat)
    (c : slide_content) :
  content_of_parsed parsed amountOfText slideIndex = inr c ->
  (length (bullets c) <= maxParagraphs slideIndex amountOfText)%nat.
Proof.
  unfold content_of_parsed, bind, ret.
  destruct (_ : attempt (list value)) as [e|bs]; [discriminate|].
  intros [= <-]. cbn [bullets]. unfold slice0. rewrite length_firstn. lia.
Qed.

Lemma content_fallback_bound (slideIndex : nat) :
  (length (bullets (content_fallback slideIndex)) <= bullet_bound slideIndex)%nat.
Proof.
  destruct slideIndex as [|[|[|n]]]; simpl; lia.
Qed.

Lemma generateSlideContent_bound (create : chat_request -> completion)
    (slideTitle : value) (topic amountOfText : string) (slideIndex : nat) :
  (length (bullets (fst (generateSlideContent create slideTitle topic amountOfText slideIndex)))
   <= bullet_bound slideIndex)%nat.
Proof.
  pose proof (generateSlideContent_paths create slideTitle topic amountOfText slideIndex)
    as Hpath. cbv zeta in Hpath.
  destruct (content_try _ _ _) as [e|c] eqn:Htry; rewrite Hpath.
  - apply content_fallback_bound.
  - destruct (content_try_parsed _ _ _ _ Htry) as (parsed & _ & Hc).
    apply content_of_parsed_bound in Hc.
    pose proof (maxParagraphs_bound slideIndex amountOfText). lia.
Qed.

(** X13. Whatever the completion API answers, [generateSlideContent]
    returns at most 1 bullet for slide index 0, at most 6 for index 2 and at
    most 2 for every other index; so in every deck the route answers with,
    the first slide has at most 1 bullet, the third at most 6, every other
    slide at most 2, and none more than 6. *)
Theorem deck_bullet_bounds (w : world) (req : generation_request) :
  (forall create slideTitle topic amountOfText slideIndex,
      (length (bullets (fst (generateSlideContent create slideTitle topic amountOfText
                               slideIndex)))
       <= bullet_bound slideIndex <= 6)%nat) /\
  forall body, fst (api_generate w req) = Json body ->
    forall i s, nth_error (slides body) i = Some s ->
      (length (slide_bullets s) <= bullet_bound i <= 6)%nat.
Proof.
  assert (Hsix : forall i, (bullet_bound i <= 6)%nat)
    by (intros [|[|[|n]]]; simpl; lia).
  split.
  { intros. split; [apply generateSlideContent_bound | apply Hsix]. }
  intros body Hbody. apply api_generate_deck in Hbody. destruct Hbody as [-> _].
  intros i s Hs. apply nth_slide in Hs. destruct Hs as (t & _ & ->).
  destruct (assemble_slide_fields w req i t) as (_ & _ & -> & _).
  split; [apply generateSlideContent_bound | apply Hsix].
Qed.

Lemma deck_bullet_bounds_witness :
  let w := replying_world
             (VArr [VStr "a"; VStr "b"; VStr "c"])
             (VObj [("bullets", VArr [VNum 1; VNum 2; VNum 3; VNum 4;
                                      VNum 5; VNum 6; VNum 7])]) in
  exists body s,
    fst (api_generate w solar_request) = Json body /\
    nth_error (slides body) 2 = Some s /\
    length (slide_bullets s) = 3%nat /\
    (length (slide_bullets s) <= 6)%nat.
Proof.
  intros w.
  assert (Hbody : fst (api_generate w solar_request) = Json (deck_of w solar_request))
    by (apply api_generate_answers; reflexivity).
  destruct (deck_bullet_bounds w solar_request) as (_ & Hbound).
  do 2 eexists. split; [exact Hbody|]. split; [reflexivity|]. split; [reflexivity|].
  pose proof (Hbound _ Hbody 2%nat _ eq_refl) as H.
  exact (Nat.le_trans _ _ _ (proj1 H) (proj2 H)).
Defined.

(** ** The deck when the completion API is down *)

Lemma failed_outline (create : chat_request -> completion) (topic : string)
    (numSlides : Z) (amountOfText : string) :
  failed (create (outline_request topic numSlides)) ->
  fst (generateOutline create topic numSlides amountOfText) = outline_fallback topic.
Proof.
  rewrite outline_titles_by_answer.
  destruct (create (outline_request topic numSlides)); simpl; tauto.
Qed.

Lemma failed_content (create : chat_request -> completion)
    (slideTitle : value) (topic amountOfText : string) (slideIndex : nat) :
  failed (create (slide_request slideTitle topic amountOfText slideIndex)) ->
  fst (generateSlideContent create slideTitle topic amountOfText slideIndex) =
  content_fallback slideIndex.
Proof.
  unfold generateSlideContent. cbn [fst].
  destruct (create _); simpl; tauto.
Qed.

(** X14. When every completion call fails (rejected, no content, or
    unparsable text) and the request supplies no usable outline, the
    response is still a deck: three slides titled "Introduction to",
    "Key Concepts of" and "Applications of" the topic, the first with the
    one opening placeholder and the other two with the two paragraph
    placeholders, whatever slideCount and amountOfText say. *)
Theorem deck_when_completions_fail (w : world) (req : generation_request) :
  (forall r, failed (outline_create w r)) ->
  (forall i r, failed (content_create w i r)) ->
  has_length (req_outline req) && first_has_title (req_outline req) = false ->
  exists body,
    fst (api_generate w req) = Json body /\
    map slide_title (slides body) =
      [ VStr ("Introduction to " ++ req_title req);
        VStr ("Key Concepts of " ++ req_title req);
        VStr ("Applications of " ++ req_title req) ] /\
    map slide_bullets (slides body) =
      [ [ VStr "Sample professional opening paragraph for slide one." ];
        [ VStr "Sample professional paragraph 1"; VStr "Sample professional paragraph 2" ];
        [ VStr "Sample professional paragraph 1"; VStr "Sample professional paragraph 2" ] ].
Proof.
  intros Houtline Hcontent Hcond.
  assert (Htitles : fst (outlineTitles w req) = outline_fallback (req_title req)).
  { unfold outlineTitles. rewrite Hcond. apply failed_outline, Houtline. }
  exists (deck_of w req). split.
  { apply api_generate_answers. unfold titles_printable. now rewrite Htitles. }
  split; [rewrite deck_titles; exact Htitles|].
  unfold deck_of, map_index. cbn [slides]. rewrite Htitles.
  unfold outline_fallback. cbn [map_index_from map].
  repeat match goal with
         | |- context [slide_bullets (fst (assemble_slide w req ?i ?t))] =>
             let H := fresh in
             destruct (assemble_slide_fields w req i t) as (_ & _ & H & _);
             cbv zeta in H; rewrite H; clear H;
             rewrite (failed_content _ _ _ _ _ (Hcontent i _))
         end.
  reflexivity.
Qed.

Lemma deck_when_completions_fail_witness :
  (forall r, failed (outline_create offline_world r)) /\
  (forall i r, failed (content_create offline_world i r)) /\
  has_length (req_outline solar_request) && first_has_title (req_outline solar_request)
    = false /\
  exists body,
    fst (api_generate offline_world solar_request) = Json body /\
    map slide_title (slides body) =
      [ VStr "Introduction to Solar Power"; VStr "Key Concepts of Solar Power";
        VStr "Applications of Solar Power" ].
Proof.
  assert (Ho : forall r, failed (outline_create offline_world r)) by (intros r; exact I).
  assert (Hc : forall i r, failed (content_create offline_world i r))
    by (intros i r; exact I).
  split; [exact Ho|]. split; [exact Hc|]. split; [reflexivity|].
  destruct (deck_when_completions_fail offline_world solar_request Ho Hc eq_refl)
    as (body & Hbody & Htitles & _).
  exists body. split; [exact Hbody | exact Htitles].
Defined.

(** ** When the route answers 500 *)

(** X18. [POST /api/generate] answers with a deck, one slide per title in
    title order and the request's title, theme, amountOfText, imageSource
    and imageStyle echoed in [meta], exactly when every slide title can be
    converted to a string; when one cannot (an object with an own
    [toString] key, or an array holding one, among the titles the model
    returned), it answers with status 500.  Titles supplied in the request,
    and the fallback titles of a failed outline call, can always be
    converted. *)
Theorem api_generate_status (w : world) (req : generation_request) :
  (titles_printable w req = true ->
   exists body,
     fst (api_generate w req) = Json body /\
     map slide_title (slides body) = fst (outlineTitles w req) /\
     meta body = {| meta_title := req_title req;
                    meta_theme := req_theme req;
                    meta_amountOfText := req_amountOfText req;
                    meta_imageSource := req_imageSource req;
                    meta_imageStyle := req_imageStyle req |}) /\
  (titles_printable w req = false -> fst (api_generate w req) = Status500 TypeError) /\
  (has_length (req_outline req) && first_has_title (req_outline req) = true ->
   titles_printable w req = true) /\
  (has_length (req_outline req) && first_has_title (req_outline req) = false ->
   failed (outline_create w (outline_request (req_title req) (numSlides req))) ->
   titles_printable w req = true).
Proof.
  split; [|split; [|split]].
  - intros H. exists (deck_of w req).
    split; [now apply api_generate_answers|]. split; [apply deck_titles | reflexivity].
  - intros H. now rewrite api_generate_response, H.
  - intros Hcond. unfold titles_printable, outlineTitles. rewrite Hcond.
    apply supplied_titles_printable.
  - intros Hcond Hfailed. unfold titles_printable, outlineTitles. rewrite Hcond.
    rewrite outline_titles_by_answer.
    destruct (outline_create w _); simpl in *; try reflexivity; contradiction.
Qed.

Lemma api_generate_status_witness :
  let w := replying_world (VArr [VObj [("toString", VNum 1)]; VStr "B"])
             (VObj [("paragraphs", VArr [VStr "p"])]) in
  titles_printable w solar_request = false /\
  fst (api_generate w solar_request) = Status500 TypeError /\
  titles_printable offline_world illustrated_request = true /\
  exists body,
    fst (api_generate offline_world illustrated_request) = Json body /\
    map slide_title (slides body) = [ VStr "Sun"; VUndefined ].
Proof.
  intros w. split; [reflexivity|]. split.
  - apply (api_generate_status w solar_request). reflexivity.
  - split; [reflexivity|].
    destruct (api_generate_status offline_world illustrated_request) as (Hdeck & _).
    destruct (Hdeck eq_refl) as (body & Hbody & Htitles & _).
    exists body. split; [exact Hbody | exact Htitles].
Defined.

(** * The navigation bar *)

(** X15. A mouse click on any element the bar shows (the [mousedown] the
    document hears, then the element's [onClick]) leaves at most one of the
    two dropdowns open, whatever was open before; a click away from both
    closes both. *)
Theorem navbar_mouse_click_one_dropdown (p : Navbar.props) (target : Navbar.element)
    (s : Navbar.state) :
  Navbar.rendered p s target = true ->
  let s' := fst (Navbar.run p (Navbar.mouse_click target) s) in
  Navbar.themeDropdownOpen s' && Navbar.menuDropdownOpen s' = false /\
  (Navbar.in_theme_dropdown target = false -> Navbar.in_menu_dropdown target = false ->
   s' = Navbar.initial).
Proof.
  destruct s as [[|] [|]]; destruct target; simpl;
    repeat match goal with
           | |- context [existsb ?f ?l] => destruct (existsb f l); simpl
           end;
    intros Hr; try discriminate Hr;
    split; try reflexivity; intros; try discriminate; reflexivity.
Qed.

Lemma navbar_mouse_click_one_dropdown_witness :
  Navbar.rendered {| Navbar.themes := ["light"; "dark"];
                     Navbar.onPresent := true; Navbar.onExport := false |}
    {| Navbar.themeDropdownOpen := true; Navbar.menuDropdownOpen := true |}
    Navbar.PresentButton = true /\
  Navbar.in_theme_dropdown Navbar.PresentButton = false /\
  Navbar.in_menu_dropdown Navbar.PresentButton = false /\
  fst (Navbar.run {| Navbar.themes := ["light"; "dark"];
                     Navbar.onPresent := true; Navbar.onExport := false |}
         (Navbar.mouse_click Navbar.PresentButton)
         {| Navbar.themeDropdownOpen := true; Navbar.menuDropdownOpen := true |})
  = Navbar.initial.
Proof.
  split; [reflexivity|]. split; [reflexivity|]. split; [reflexivity|].
  apply (navbar_mouse_click_one_dropdown
           {| Navbar.themes := ["light"; "dark"];
              Navbar.onPresent := true; Navbar.onExport := false |}
           Navbar.PresentButton
           {| Navbar.themeDropdownOpen := true; Navbar.menuDropdownOpen := true |});
    reflexivity.
Defined.

Lemma navbar_dispatch_theme_change (p : Navbar.props) (ev : Navbar.event)
    (s : Navbar.state) (key : string) :
  In (Navbar.OnThemeChange key) (snd (Navbar.dispatch p ev s)) ->
  ev = Navbar.Click (Navbar.ThemeItem key) /\
  Navbar.themeDropdownOpen s = true /\
  In key (Navbar.themes p) /\
  Navbar.themeDropdownOpen (fst (Navbar.dispatch p ev s)) = false.
Proof.
  destruct ev as [target|target]; simpl;
    destruct (Navbar.rendered p s target) eqn:Hr; simpl; try tauto.
  destruct target; simpl; try tauto.
  - intros [[= ->]|[]]. simpl in Hr. apply andb_true_iff in Hr.
    destruct Hr as [Hopen Hin]. apply existsb_exists in Hin.
    destruct Hin as (k & Hk & Heq). apply String.eqb_eq in Heq. subst k.
    repeat split; assumption.
  - destruct (Navbar.onPresent p); simpl; intuition discriminate.
  - destruct (Navbar.onExport p); simpl; intuition discriminate.
Qed.

(** X16. Along any run of events, from any state, [onThemeChange] is
    called only with the key of one of the [themes] passed to the bar:
    each call comes from a click on that theme's item. *)
Theorem navbar_theme_change_keys (p : Navbar.props) (evs : list Navbar.event)
    (s : Navbar.state) (key : string) :
  In (Navbar.OnThemeChange key) (snd (Navbar.run p evs s)) ->
  In key (Navbar.themes p) /\ In (Navbar.Click (Navbar.ThemeItem key)) evs.
Proof.
  revert s; induction evs as [|ev evs IH]; intros s; simpl; [tauto|].
  destruct (Navbar.dispatch p ev s) as [s1 calls1] eqn:Hd.
  destruct (Navbar.run p evs s1) as [s2 calls2] eqn:Hr. simpl.
  intros Hin. apply in_app_or in Hin. destruct Hin as [Hin|Hin].
  - pose proof (navbar_dispatch_theme_change p ev s key) as H.
    rewrite Hd in H. destruct (H Hin) as (-> & _ & Hk & _).
    split; [exact Hk | now left].
  - specialize (IH s1). rewrite Hr in IH. destruct (IH Hin) as [Hk Hev].
    split; [exact Hk | now right].
Qed.

Lemma navbar_theme_change_keys_witness :
  In (Navbar.OnThemeChange "dark")
    (snd (Navbar.run {| Navbar.themes := ["light"; "dark"];
                        Navbar.onPresent := true; Navbar.onExport := false |}
            (Navbar.mouse_click Navbar.ThemeButton
               ++ Navbar.mouse_click (Navbar.ThemeItem "dark"))%list
            Navbar.initial)) /\
  In "dark" ["light"; "dark"].
Proof.
  assert (H : In (Navbar.OnThemeChange "dark")
                (snd (Navbar.run {| Navbar.themes := ["light"; "dark"];
                                    Navbar.onPresent := true; Navbar.onExport := false |}
                        (Navbar.mouse_click Navbar.ThemeButton
                           ++ Navbar.mouse_click (Navbar.ThemeItem "dark"))%list
                        Navbar.initial)))
    by (simpl; auto).
  split; [exact H|].
  apply (navbar_theme_change_keys _ _ _ _ H).
Defined.

(** X17. Choosing a theme with the mouse, while its item is shown, calls
    [onThemeChange] once, with that theme's key, calls nothing else, and
    leaves both dropdowns closed. *)
Theorem navbar_choose_theme (p : Navbar.props) (key : string) (s : Navbar.state) :
  Navbar.rendered p s (Navbar.ThemeItem key) = true ->
  Navbar.run p (Navbar.mouse_click (Navbar.ThemeItem key)) s =
  (Navbar.initial, [Navbar.OnThemeChange key]).
Proof.
  destruct s as [[|] [|]]; simpl;
    destruct (existsb (String.eqb key) (Navbar.themes p)); simpl;
    intros Hr; try discriminate Hr; reflexivity.
Qed.

Lemma navbar_choose_theme_witness :
  Navbar.rendered {| Navbar.themes := ["light"; "dark"];
                     Navbar.onPresent := true; Navbar.onExport := false |}
    {| Navbar.themeDropdownOpen := true; Navbar.menuDropdownOpen := false |}
    (Navbar.ThemeItem "dark") = true /\
  Navbar.run {| Navbar.themes := ["light"; "dark"];
                Navbar.onPresent := true; Navbar.onExport := false |}
    (Navbar.mouse_click (Navbar.ThemeItem "dark"))
    {| Navbar.themeDropdownOpen := true; Navbar.menuDropdownOpen := false |}
  = (Navbar.initial, [Navbar.OnThemeChange "dark"]).
Proof.
  split; [reflexivity|].
  apply (navbar_choose_theme
           {| Navbar.themes := ["light"; "dark"];
              Navbar.onPresent := true; Navbar.onExport := false |}
           "dark"
           {| Navbar.themeDropdownOpen := true; Navbar.menuDropdownOpen := false |}).
  reflexivity.
Defined.
